(** * atlas-db controller: the Database reconciliation routine

    A shallow embedding of the two revisions of the routine that the
    repository carries,

      - [atlas-db-controller/databaseResource.go], which logs through
        [c.logger] and updates the status with [Update]: module
        [DatabaseResource], "the first revision" below;
      - the revision kept without a file name, which logs through [glog] and
        updates the status with [UpdateStatus]: module [Part000], "the
        second revision" below;

    (first and second as the repository lists them, not in order of time)
    and the properties of the DSN parsing, the DSN resolution, the status
    reporting, the secret synchronisation and the reconciliation itself. *)

From Stdlib Require Import ZArith List String Ascii Bool Lia.
From Stdlib Require Import DecimalString DecimalNat.
Import ListNotations.
Open Scope string_scope.

(** ** Go values shared by both revisions *)

(** A run-time panic of the Go program. *)
Inductive Panic : Type :=
| IndexOutOfRange (index len : nat)
| NilDereference (what : string).

(** The outcome of a pure Go expression that may panic. *)
Inductive Outcome (A : Type) : Type :=
| Value (a : A)
| Panics (p : Panic).
Arguments Value {A} a.
Arguments Panics {A} p.

Definition obind {A B} (o : Outcome A) (k : A -> Outcome B) : Outcome B :=
  match o with
  | Value a => k a
  | Panics p => Panics p
  end.

(** [l[i]] on a Go slice: a run-time panic when [i] is out of range. *)
Definition index {A} (l : list A) (i : nat) : Outcome A :=
  match nth_error l i with
  | Some a => Value a
  | None => Panics (IndexOutOfRange i (List.length l))
  end.

(** ** The library functions [getHostAndPort] calls *)

(** [strings.Split(s, sep)] for a one-byte separator, the only kind the
    source passes ("@", "/" and ":"). The result always has one element more
    than [s] has separators. *)
Fixpoint Split (s : string) (sep : ascii) : list string :=
  match s with
  | EmptyString => [EmptyString]
  | String a s' =>
      if Ascii.eqb a sep then EmptyString :: Split s' sep
      else match Split s' sep with
           | h :: t => String a h :: t
           | [] => [String a EmptyString]
           end
  end.

Inductive NumError : Type := ErrSyntax | ErrRange.

Definition digit_of (a : ascii) : option Z :=
  let n := Z.of_nat (nat_of_ascii a) in
  if ((48 <=? n) && (n <=? 57))%Z then Some (n - 48)%Z else None.

(** The loop of the fast path of [strconv.Atoi], taken by texts of fewer
    than 19 bytes, which cannot overflow: the digits of [s] read in base 10
    onto [acc]; [None] at a byte that is not a digit. *)
Fixpoint parse_digits (s : string) (acc : Z) : option Z :=
  match s with
  | EmptyString => Some acc
  | String a s' =>
      match digit_of a with
      | Some d => parse_digits s' (acc * 10 + d)
      | None => None
      end
  end.

Definition maxUint64 : Z := 2 ^ 64 - 1.
Definition maxInt64 : Z := 2 ^ 63 - 1.
Definition minInt64 : Z := - 2 ^ 63.

(** The loop of [strconv.ParseUint(s, 10, 64)], byte by byte: a byte that is
    not a decimal digit ends it with a syntax error; a digit that would take
    the number past 64 bits ends it with a range error and the largest
    value, before the bytes after that digit are looked at. *)
Fixpoint ParseUint_loop (s : string) (n : Z) : Z * option NumError :=
  match s with
  | EmptyString => (n, None)
  | String c s' =>
      match digit_of c with
      | None => (0%Z, Some ErrSyntax)
      | Some d =>
          if (maxUint64 / 10 + 1 <=? n)%Z then (maxUint64, Some ErrRange)
          else
            let n1 := (n * 10 + d)%Z in
            if (maxUint64 <? n1)%Z then (maxUint64, Some ErrRange)
            else ParseUint_loop s' n1
      end
  end.

Definition ParseUint (s : string) : Z * option NumError :=
  match s with
  | EmptyString => (0%Z, Some ErrSyntax)
  | _ => ParseUint_loop s 0
  end.

(** [strconv.ParseInt(s, 10, 0)] on a 64-bit platform: an optional sign,
    then [ParseUint]; its syntax error is passed on with value 0, and its
    range error, or a value that does not fit in 64 bits with the sign,
    gives the nearest bound with a range error. *)
Definition ParseInt (s : string) : Z * option NumError :=
  match s with
  | EmptyString => (0%Z, Some ErrSyntax)
  | String a s' =>
      let neg := Ascii.eqb a "-" in
      let rest := if Ascii.eqb a "+" || neg then s' else s in
      match ParseUint rest with
      | (_, Some ErrSyntax) => (0%Z, Some ErrSyntax)
      | (un, _) =>
          let cutoff := (2 ^ 63)%Z in
          if negb neg && (cutoff <=? un)%Z then ((cutoff - 1)%Z, Some ErrRange)
          else if neg && (cutoff <? un)%Z then ((- cutoff)%Z, Some ErrRange)
          else ((if neg then - un else un)%Z, None)
      end
  end.

(** [strconv.Atoi] on a 64-bit platform. A text of 1 to 18 bytes takes the
    fast path: an optional sign, then digits only, or 0 with a syntax error.
    Every other text goes through [ParseInt]. *)
Definition Atoi (s : string) : Z * option NumError :=
  let sLen := String.length s in
  if (0 <? sLen)%nat && (sLen <? 19)%nat then
    match s with
    | EmptyString => (0%Z, Some ErrSyntax)
    | String a s' =>
        let signed := Ascii.eqb a "-" || Ascii.eqb a "+" in
        let rest := if signed then s' else s in
        if signed && (String.length rest <? 1)%nat then (0%Z, Some ErrSyntax)
        else
          match parse_digits rest 0 with
          | None => (0%Z, Some ErrSyntax)
          | Some n => ((if Ascii.eqb a "-" then - n else n)%Z, None)
          end
    end
  else ParseInt s.

(** The conversion [int32(n)]: the low 32 bits of [n], read as signed. *)
Definition int32 (n : Z) : Z := ((n + 2 ^ 31) mod 2 ^ 32 - 2 ^ 31)%Z.

(** ** [getHostAndPort] (identical in both revisions)

<<
  splitDSN := strings.Split(strings.Split(dsn, "@")[1], "/")[0]
  host = strings.Split(splitDSN, ":")[0]
  portInt, _ := strconv.Atoi(strings.Split(splitDSN, ":")[1])
  port = int32(portInt)
>>
    The function has two results, [host] and [port], and no error result. *)
Definition getHostAndPort (dsn : string) : Outcome (string * Z) :=
  obind (index (Split dsn "@") 1) (fun afterAt =>
  obind (index (Split afterAt "/") 0) (fun splitDSN =>
  obind (index (Split splitDSN ":") 0) (fun host =>
  obind (index (Split splitDSN ":") 1) (fun portText =>
  let '(portInt, _) := Atoi portText in
  Value (host, int32 portInt))))).

(** Number of occurrences of a byte in a string. *)
Fixpoint count_byte (c : ascii) (s : string) : nat :=
  match s with
  | EmptyString => 0
  | String a s' => (if Ascii.eqb a c then 1 else 0) + count_byte c s'
  end.

(** A string of the shape the DSN has after its credentials: no further
    separator of the three kinds. *)
Definition plain (s : string) : Prop :=
  count_byte "@" s = 0 /\ count_byte "/" s = 0 /\ count_byte ":" s = 0.

(** ** The API objects

    The types of [pkg/apis/db/v1alpha1] and of the Kubernetes API are
    declared outside the two files; the records below carry the fields the
    routine reads and writes. *)

(** A Kubernetes API error; [errors.IsNotFound] tests [notFound], and
    formatting an error with [%s] prints [Error]. *)
Record error : Type := { notFound : bool; Error : string }.

Definition IsNotFound (err : option error) : bool :=
  match err with
  | Some e => notFound e
  | None => false
  end.

(** [fmt.Errorf(msg)] *)
Definition Errorf (msg : string) : error := {| notFound := false; Error := msg |}.

(** A Go slice: [nil] and the empty slice are different values, and
    [x == nil] tells them apart; both have length 0. *)
Inductive slice (A : Type) : Type :=
| nil_slice
| slice_of (elems : list A).
Arguments nil_slice {A}.
Arguments slice_of {A} elems.

Definition elems {A} (s : slice A) : list A :=
  match s with
  | nil_slice => []
  | slice_of l => l
  end.

Definition is_nil {A} (s : slice A) : bool :=
  match s with
  | nil_slice => true
  | slice_of _ => false
  end.

Record OwnerReference : Type :=
  { ref_UID : string; ref_Controller : option bool }.

Record ObjectMeta : Type :=
  { Namespace : string; Name : string; UID : string;
    OwnerReferences : list OwnerReference }.

Record SecretKeySelector : Type := { sel_Name : string; sel_Key : string }.

(** Modelled from the spec: the type [ValueSource] is declared outside the
    two files; section 6 gives it as [{secretKeyRef:{name,key}}]. *)
Record ValueSource : Type := { SecretKeyRef : SecretKeySelector }.

Record DatabaseUser : Type :=
  { user_Name : string; user_Role : string; user_Password : string;
    user_PasswordFrom : option ValueSource }.

Record DatabaseSpec : Type :=
  { Server : string; ServerType : string; Dsn : string;
    DsnFrom : option ValueSource; Users : slice DatabaseUser }.

Record DatabaseStatus : Type := { State : string; Message : string }.

Record Database : Type :=
  { db_Meta : ObjectMeta; Spec : DatabaseSpec; Status : DatabaseStatus }.

(** [spec.host] is the field the second revision writes, [spec.dbHost] the
    one the first revision writes. *)
Record DatabaseServerSpec : Type :=
  { Host : string; DBHost : string; ServicePort : Z }.

Record DatabaseServer : Type :=
  { srv_Meta : ObjectMeta; srv_Spec : DatabaseServerSpec }.

Record Secret : Type :=
  { sec_Meta : ObjectMeta; StringData : list (string * string) }.

(** [&atlas.DatabaseServer{}] *)
Definition emptyMeta : ObjectMeta :=
  {| Namespace := ""; Name := ""; UID := ""; OwnerReferences := [] |}.
Definition emptyDatabaseServer : DatabaseServer :=
  {| srv_Meta := emptyMeta;
     srv_Spec := {| Host := ""; DBHost := ""; ServicePort := 0 |} |}.

(** Field assignments. *)
Definition set_State (d : Database) (state : string) : Database :=
  {| db_Meta := db_Meta d; Spec := Spec d;
     Status := {| State := state; Message := Message (Status d) |} |}.

Definition set_Message (d : Database) (msg : string) : Database :=
  {| db_Meta := db_Meta d; Spec := Spec d;
     Status := {| State := State (Status d); Message := msg |} |}.

Definition set_Password (u : DatabaseUser) (passwd : string) : DatabaseUser :=
  {| user_Name := user_Name u; user_Role := user_Role u;
     user_Password := passwd; user_PasswordFrom := user_PasswordFrom u |}.

Fixpoint update_nth {A} (l : list A) (i : nat) (f : A -> A) : list A :=
  match l, i with
  | [], _ => []
  | x :: l', O => f x :: l'
  | x :: l', S j => x :: update_nth l' j f
  end.

(** [db.Spec.Users[index].Password = passwd] *)
Definition set_User_Password (d : Database) (i : nat) (passwd : string)
  : Database :=
  {| db_Meta := db_Meta d;
     Spec := {| Server := Server (Spec d); ServerType := ServerType (Spec d);
                Dsn := Dsn (Spec d); DsnFrom := DsnFrom (Spec d);
                Users := match Users (Spec d) with
                         | nil_slice => nil_slice
                         | slice_of l =>
                             slice_of (update_nth l i (fun u => set_Password u passwd))
                         end |};
     Status := Status d |}.

Definition set_DBHost (s : DatabaseServer) (host : string) : DatabaseServer :=
  {| srv_Meta := srv_Meta s;
     srv_Spec := {| Host := Host (srv_Spec s); DBHost := host;
                    ServicePort := ServicePort (srv_Spec s) |} |}.

Definition set_Host (s : DatabaseServer) (host : string) : DatabaseServer :=
  {| srv_Meta := srv_Meta s;
     srv_Spec := {| Host := host; DBHost := DBHost (srv_Spec s);
                    ServicePort := ServicePort (srv_Spec s) |} |}.

Definition set_ServicePort (s : DatabaseServer) (port : Z) : DatabaseServer :=
  {| srv_Meta := srv_Meta s;
     srv_Spec := {| Host := Host (srv_Spec s); DBHost := DBHost (srv_Spec s);
                    ServicePort := port |} |}.

(** Modelled from the spec: the state constants are declared outside the
    two files; section 6 lists the values [Pending|Error|Success|Created]. *)
Definition StatePending : string := "Pending".
Definition StateError : string := "Error".
Definition StateSuccess : string := "Success".
Definition StateCreated : string := "Created".

(** [corev1.EventTypeNormal], [corev1.EventTypeWarning] *)
Definition EventTypeNormal : string := "Normal".
Definition EventTypeWarning : string := "Warning".

(** [metav1.GetControllerOf]: the first owner reference whose [Controller]
    flag is set and true. *)
Fixpoint GetControllerOf (refs : list OwnerReference) : option OwnerReference :=
  match refs with
  | [] => None
  | r :: refs' =>
      match ref_Controller r with
      | Some true => Some r
      | _ => GetControllerOf refs'
      end
  end.

(** [metav1.IsControlledBy(secret, db)]; reading the owner references of a
    nil [*Secret] is a nil dereference. *)
Definition IsControlledBy (secret : option Secret) (owner : Database)
  : Outcome bool :=
  match secret with
  | None => Panics (NilDereference "secret")
  | Some sec =>
      match GetControllerOf (OwnerReferences (sec_Meta sec)) with
      | None => Value false
      | Some r => Value (String.eqb (ref_UID r) (UID (db_Meta owner)))
      end
  end.

(** [cache.SplitMetaNamespaceKey]: [name], or [namespace/name]; anything
    with more parts is an error. *)
Definition SplitMetaNamespaceKey (key : string)
  : string * string * option error :=
  match Split key "/" with
  | [name] => ("", name, None)
  | [namespace; name] => (namespace, name, None)
  | _ => ("", "", Some (Errorf ("unexpected key format: " ++ key)))
  end.

(** ** Effects

    Every call that leaves the routine is recorded, in order. *)

Definition loc : Type := nat.

Inductive Level : Type :=
| InfoLevel | DebugLevel | WarningLevel | ErrorLevel | HandleError | V4.

Inductive ObjectRef : Type :=
| RefDatabase (db : option loc)
| RefDatabaseServer (s : option DatabaseServer).

Inductive Effect : Type :=
| Log (lvl : Level) (msg : string)
| DatabasesGet (namespace name : string)
| DatabaseServersGet (namespace name : string)
| SecretsGet (namespace name : string)
| DatabasesUpdate (namespace : string) (copy : Database)
| SecretsCreate (namespace : string) (secret : Secret)
| GetSecretFromValueSource (namespace : string) (from : ValueSource)
| GetSecretByName (namespace key name : string)
| PluginSyncDatabase (db : Database) (dsn : string)
| PluginDsn (user passwd : string) (db : Database) (server : DatabaseServer)
| RecorderEvent (object : ObjectRef) (eventtype reason message : string).

Definition History : Type := list Effect.

(** The result of a lister or client call: an object or an error. *)
Inductive Res (A : Type) : Type :=
| Ok (a : A)
| Err (e : error).
Arguments Ok {A} a.
Arguments Err {A} e.

Definition res_obj {A} (r : Res A) : option A :=
  match r with Ok a => Some a | Err _ => None end.
Definition res_err {A} (r : Res A) : option error :=
  match r with Ok _ => None | Err e => Some e end.

(** The two operations of the plugin contract. A plugin reads the objects it
    is handed and does not write to them; its answers may depend on
    everything that happened before the call. The second revision's
    [SyncDatabase] has the error result only. *)
Record DatabasePlugin : Type :=
  { SyncDatabase : History -> Database -> string -> string * option error;
    PDsn : History -> string -> string -> Database -> DatabaseServer -> string }.

(** Everything of package [main] and of its dependencies that the two files
    use and do not declare: the listers over the informer caches, the API
    clients, the plugin registry, the helper methods and the message
    constants ([fmtX a] stands for [fmt.Sprintf(X, a)]). A lister yields a
    pointer into the cache; the answers of the collaborators may depend on
    the history of calls so far. *)
Record Controller : Type :=
  { dbsLister : History -> string -> string -> Res loc;
    serversLister : History -> string -> string -> Res DatabaseServer;
    secretsLister : History -> string -> string -> Res Secret;
    atlasclientset_Update : History -> string -> Database -> option error;
    kubeclientset_Create : History -> string -> Secret -> Res Secret;
    getSecretFromValueSource :
      History -> string -> ValueSource -> string * option error;
    getSecretByName :
      History -> string -> string -> string -> string * option error;
    NewDBPlugin : string -> option DatabasePlugin;
    ActivePlugin : DatabaseServer -> option DatabasePlugin;
    objMeta : Database -> string -> ObjectMeta;
    fmtMessageDatabaseSynced : string -> string;
    fmtMessageSecretCreated : string -> string;
    fmtMessageSecretExists : string -> string;
    ErrResourceExists : string;
    SuccessSynced : string }.

(** ** The monad of a Go function body

    The state is the memory holding the [Database] objects (the cache-owned
    ones and the copies made by [DeepCopy]) and the history of calls. A
    statement continues with a value, leaves the function with [return], or
    panics. *)

Record World : Type := { heap : list Database; trace : History }.

Inductive Result (R A : Type) : Type :=
| Next (a : A) (w : World)
| Return (r : R) (w : World)
| Panicked (p : Panic) (w : World).
Arguments Next {R A} a w.
Arguments Return {R A} r w.
Arguments Panicked {R A} p w.

Definition M (R A : Type) : Type := World -> Result R A.

Definition ret {R A} (a : A) : M R A := fun w => Next a w.

Definition bind {R A B} (m : M R A) (k : A -> M R B) : M R B :=
  fun w =>
    match m w with
    | Next a w' => k a w'
    | Return r w' => Return r w'
    | Panicked p w' => Panicked p w'
    end.

Declare Scope go_scope.
Delimit Scope go_scope with go.
Notation "x <- m ;; k" := (bind m (fun x => k))
  (at level 61, m at next level, right associativity) : go_scope.
Notation "' pat <- m ;; k" := (bind m (fun x => match x with pat => k end))
  (at level 61, pat pattern, m at next level, right associativity) : go_scope.
Notation "m ;; k" := (bind m (fun _ => k))
  (at level 61, right associativity) : go_scope.
Open Scope go_scope.

(** [return r] *)
Definition Return_ {R A} (r : R) : M R A := fun w => Return r w.

Definition panic {R A} (p : Panic) : M R A := fun w => Panicked p w.

Definition lift {R A} (o : Outcome A) : M R A :=
  match o with
  | Value a => ret a
  | Panics p => panic p
  end.

(** A call of a function with body [body]. *)
Definition call {R B} (body : M B B) : M R B :=
  fun w =>
    match body w with
    | Next b w' => Next b w'
    | Return b w' => Next b w'
    | Panicked p w' => Panicked p w'
    end.

Definition emit {R} (e : Effect) : M R unit :=
  fun w => Next tt {| heap := heap w; trace := (trace w ++ [e])%list |}.

(** A call to a collaborator: recorded, and answered from the history. *)
Definition ask {R A} (e : Effect) (answer : History -> A) : M R A :=
  fun w => Next (answer (trace w)) {| heap := heap w; trace := (trace w ++ [e])%list |}.

Definition log {R} (lvl : Level) (msg : string) : M R unit := emit (Log lvl msg).

(** [*db] *)
Definition load {R} (db : loc) : M R Database :=
  fun w =>
    match nth_error (heap w) db with
    | Some d => Next d w
    | None => Panicked (NilDereference "db") w
    end.

(** An assignment through the pointer [db]. *)
Definition modify {R} (db : loc) (f : Database -> Database) : M R unit :=
  fun w =>
    match nth_error (heap w) db with
    | Some _ => Next tt {| heap := update_nth (heap w) db f; trace := trace w |}
    | None => Panicked (NilDereference "db") w
    end.

(** [db.DeepCopy()]: a fresh object with the same contents. *)
Definition DeepCopy {R} (db : loc) : M R loc :=
  fun w =>
    match nth_error (heap w) db with
    | Some d =>
        Next (List.length (heap w)) {| heap := (heap w ++ [d])%list; trace := trace w |}
    | None => Panicked (NilDereference "db") w
    end.

Definition when {R} (b : bool) (m : M R unit) : M R unit :=
  if b then m else ret tt.

(** [for index, x := range l], threading the variables the body assigns. *)
Fixpoint forRange {R A V} (l : list A) (index : nat)
  (body : nat -> A -> V -> M R V) (vars : V) : M R V :=
  match l with
  | [] => ret vars
  | x :: l' => vars' <- body index x vars ;; forRange l' (S index) body vars'
  end.

Definition nonempty (s : string) : bool := negb (String.eqb s "").

(** [%q] of a string without characters to escape. *)
Definition quote (s : string) : string :=
  String (ascii_of_nat 34) s ++ String (ascii_of_nat 34) "".

(** [x == nil] on a pointer. *)
Definition is_nil_ptr {A} (x : option A) : bool :=
  match x with
  | Some _ => false
  | None => true
  end.

(** [x.Name] on a pointer that may be nil. *)
Definition deref {R A} (what : string) (x : option A) : M R A :=
  match x with
  | Some a => ret a
  | None => panic (NilDereference what)
  end.

(** ** The first revision: [atlas-db-controller/databaseResource.go] *)

Module DatabaseResource.
Section Methods.

Variable c : Controller.

(** [func (c *Controller) updateDatabaseStatus(key, db, state, msg)] *)
Definition updateDatabaseStatus {R} (key : string) (db : loc)
  (state msg : string) : M R (option loc * option error) :=
  call (
    copy <- DeepCopy db ;;
    modify copy (fun d => set_State d state) ;;
    modify copy (fun d => set_Message d msg) ;;
    d <- load db ;;
    cp <- load copy ;;
    err <- ask (DatabasesUpdate (Namespace (db_Meta d)) cp)
               (fun h => atlasclientset_Update c h (Namespace (db_Meta d)) cp) ;;
    match err with
    | Some e =>
        log WarningLevel ("error updating status to '" ++ state
                     ++ "' for database '" ++ key ++ "': " ++ Error e) ;;
        Return_ (Some db, err)
    | None =>
        d <- load db ;;
        r <- ask (DatabasesGet (Namespace (db_Meta d)) (Name (db_Meta d)))
                 (fun h => dbsLister c h (Namespace (db_Meta d)) (Name (db_Meta d))) ;;
        Return_ (res_obj r, res_err r)
    end).

(** [func (c *Controller) syncDatabaseSecret(key, dsn, db, dbServer, dbPlugin)] *)
Definition syncDatabaseSecret {R} (key dsn : string) (db : loc)
  (dbServer : option DatabaseServer) (dbPlugin : DatabasePlugin)
  : M R (option error) :=
  call (
    d <- load db ;;
    (if is_nil (Users (Spec d)) then
       log DebugLevel " Database users not provided. Skip database secret creation" ;;
       Return_ None
     else ret tt) ;;
    r <- ask (SecretsGet (Namespace (db_Meta d)) (Name (db_Meta d)))
             (fun h => secretsLister c h (Namespace (db_Meta d)) (Name (db_Meta d))) ;;
    let secret := res_obj r in
    let err := res_err r in
    match err with
    | Some e =>
        if negb (notFound e) then
          let msg := "failed to get secret '" ++ key ++ "': " ++ Error e in
          log ErrorLevel msg ;;
          updateDatabaseStatus key db StateError msg ;;
          Return_ err
        else ret tt
    | None => ret tt
    end ;;
    d <- load db ;;
    (* the elements of the slice as the loop reads them: nothing in the loop
       writes to [db.Spec.Users] *)
    '(_, secret, _) <-
      forRange (elems (Users (Spec d))) 0
        (fun _ user '(dsn, secret, err) =>
           let passwd := user_Password user in
           if String.eqb (user_Role user) "admin" then
             if IsNotFound err then
               log InfoLevel ("Database secret not found for %s. Creating..." ++ key) ;;
               dsn <- match dbServer with
                      | Some server =>
                          d <- load db ;;
                          ask (PluginDsn (user_Name user) passwd d server)
                              (fun h => PDsn dbPlugin h (user_Name user) passwd d server)
                      | None =>
                          let customDbServer := emptyDatabaseServer in
                          '(host, port) <- lift (getHostAndPort dsn) ;;
                          let customDbServer := set_DBHost customDbServer host in
                          let customDbServer := set_ServicePort customDbServer port in
                          d <- load db ;;
                          ask (PluginDsn (user_Name user) passwd d customDbServer)
                              (fun h => PDsn dbPlugin h (user_Name user) passwd d
                                          customDbServer)
                      end ;;
               d <- load db ;;
               let new := {| sec_Meta := objMeta c d "Secret";
                             StringData := [("dsn", dsn)] |} in
               r <- ask (SecretsCreate (Namespace (db_Meta d)) new)
                        (fun h => kubeclientset_Create c h (Namespace (db_Meta d)) new) ;;
               let secret := res_obj r in
               let err := res_err r in
               match err with
               | Some e =>
                   let msg := "failed to create secret '" ++ key ++ "': " ++ Error e in
                   log ErrorLevel msg ;;
                   updateDatabaseStatus key db StateError msg ;;
                   Return_ err
               | None => ret tt
               end ;;
               created <- deref "secret" secret ;;
               emit (RecorderEvent (RefDatabase (Some db)) EventTypeNormal StateCreated
                       (fmtMessageSecretCreated c (Name (sec_Meta created)))) ;;
               ret (dsn, secret, err)
             else ret (dsn, secret, err)
           else ret (dsn, secret, err))
        (dsn, secret, err) ;;
    d <- load db ;;
    controlled <- lift (IsControlledBy secret d) ;;
    if negb controlled then
      sec <- deref "secret" secret ;;
      let msg := fmtMessageSecretExists c (Name (sec_Meta sec)) in
      emit (RecorderEvent (RefDatabase (Some db)) EventTypeWarning (ErrResourceExists c) msg) ;;
      Return_ (Some (Errorf msg))
    else
      Return_ None).

(** The DSN of the database, lines 92-124 of [syncDatabase]: the literal
    [Spec.Dsn], else the value [Spec.DsnFrom] points to, else the key "dsn" of
    the secret named after the server. *)
Definition syncDatabase_dsn (key : string) (db : loc)
  (s : option DatabaseServer) : M (option error) string :=
  d <- load db ;;
  let dsn := Dsn (Spec d) in
  if String.eqb dsn "" then
    match DsnFrom (Spec d) with
    | Some from =>
        let secretName := sel_Name (SecretKeyRef from) in
        d <- load db ;;
        '(dsn, err) <- ask (GetSecretFromValueSource (Namespace (db_Meta d)) from)
                           (fun h => getSecretFromValueSource c h
                                       (Namespace (db_Meta d)) from) ;;
        match err with
        | Some e =>
            (if notFound e then
               let msg := "waiting to get DSN for database `" ++ key
                          ++ "` from secret `" ++ secretName ++ "`" in
               log DebugLevel msg ;;
               updateDatabaseStatus key db StatePending msg ;;
               Return_ err
             else ret tt) ;;
            let msg := "failed to get valid DSN for database `" ++ key
                       ++ "` from secret `" ++ secretName ++ "`" in
            log ErrorLevel msg ;;
            updateDatabaseStatus key db StateError msg ;;
            Return_ None
        | None => ret dsn
        end
    | None =>
        d <- load db ;;
        server <- deref "s" s ;;
        '(dsn, err) <- ask (GetSecretByName (Namespace (db_Meta d)) "dsn"
                              (Name (srv_Meta server)))
                           (fun h => getSecretByName c h (Namespace (db_Meta d))
                                       "dsn" (Name (srv_Meta server))) ;;
        match err with
        | Some e =>
            (if notFound e then
               let msg := "waiting to get DSN for database `" ++ key
                          ++ "` from secret `" ++ Name (srv_Meta server)
                          ++ "`" in
               log DebugLevel msg ;;
               updateDatabaseStatus key db StatePending msg ;;
               Return_ err
             else ret tt) ;;
            let msg := "failed to get valid DSN for database `" ++ key
                       ++ "` from secret `" ++ Name (srv_Meta server)
                       ++ "`" in
            log ErrorLevel msg ;;
            updateDatabaseStatus key db StateError msg ;;
            Return_ None
        | None => ret dsn
        end
    end
  else ret dsn.

(** Lines 51-161 of [syncDatabase]: everything after the initial status. *)
Definition syncDatabase_reconcile (key namespace : string) (db : loc)
  : M (option error) (option error) :=
  d <- load db ;;
  s <- (if nonempty (Server (Spec d)) then
          r <- ask (DatabaseServersGet namespace (Server (Spec d)))
                   (fun h => serversLister c h namespace (Server (Spec d))) ;;
          match r with
          | Err e =>
              (if notFound e then
                 let msg := "waiting for database server '" ++ namespace ++ "/"
                            ++ Server (Spec d) ++ "'" in
                 log DebugLevel msg ;;
                 updateDatabaseStatus key db StatePending msg ;;
                 ret tt
               else
                 log WarningLevel ("error retrieving database server '"
                              ++ Server (Spec d) ++ "' for database '" ++ key
                              ++ "': " ++ Error e)) ;;
              Return_ (Some e)
          | Ok server => ret (Some server)
          end
        else ret None) ;;
  d <- load db ;;
  let serverType := ServerType (Spec d) in
  (if String.eqb serverType "" && is_nil_ptr s then
     let msg := "database '" ++ key ++ "' has no serverType or server set" in
     log ErrorLevel msg ;;
     updateDatabaseStatus key db StateError msg ;;
     Return_ None
   else ret tt) ;;
  p <- (if nonempty serverType then ret (NewDBPlugin c serverType)
        else server <- deref "s" s ;; ret (ActivePlugin c server)) ;;
  p <- match p with
       | None =>
           let msg := "database '" ++ key
                      ++ "' does not have a valid database plugin" in
           log ErrorLevel msg ;;
           updateDatabaseStatus key db StateError msg ;;
           Return_ None
       | Some p => ret p
       end ;;
  dsn <- syncDatabase_dsn key db s ;;
  d <- load db ;;
  (* each iteration reads its own element before it writes to it, so the
     elements are those the slice holds when the loop starts *)
  forRange (elems (Users (Spec d))) 0
    (fun index user (_ : unit) =>
       match user_PasswordFrom user with
       | Some from =>
           d <- load db ;;
           '(passwd, err) <- ask (GetSecretFromValueSource (Namespace (db_Meta d)) from)
                                 (fun h => getSecretFromValueSource c h
                                             (Namespace (db_Meta d)) from) ;;
           match err with
           | Some e =>
               if notFound e then
                 let msg := "waiting for secret or configmap for "
                            ++ user_Name user in
                 updateDatabaseStatus key db StatePending msg ;;
                 Return_ err
               else ret tt
           | None => ret tt
           end ;;
           modify db (fun d => set_User_Password d index passwd)
       | None => ret tt
       end)
    tt ;;
  d <- load db ;;
  '(state, err) <- ask (PluginSyncDatabase d dsn) (fun h => SyncDatabase p h d dsn) ;;
  match err with
  | Some e =>
      let msg := "error syncing database '" ++ key ++ "': " ++ Error e in
      log ErrorLevel msg ;;
      updateDatabaseStatus key db StateError msg ;;
      Return_ err
  | None => ret tt
  end ;;
  (if String.eqb state StateCreated then
     server <- deref "s" s ;;
     let msg := "Database " ++ quote (Name (srv_Meta server))
                ++ " & Users created successfully" in
     emit (RecorderEvent (RefDatabase (Some db)) EventTypeNormal StateCreated msg)
   else ret tt) ;;
  err <- syncDatabaseSecret key dsn db s p ;;
  match err with
  | Some e =>
      let msg := "error syncing database secrets '" ++ key ++ "': " ++ Error e in
      updateDatabaseStatus key db StateError msg ;;
      Return_ None
  | None => ret tt
  end ;;
  updateDatabaseStatus key db StateSuccess (fmtMessageDatabaseSynced c key) ;;
  Return_ None.

(** [func (c *Controller) syncDatabase(key string) error] *)
Definition syncDatabase {R} (key : string) : M R (option error) :=
  call (
    log InfoLevel ("Processing database : " ++ key) ;;
    let '(namespace, name, err) := SplitMetaNamespaceKey key in
    match err with
    | Some _ => log ErrorLevel ("invalid resource key: " ++ key) ;; Return_ None
    | None => ret tt
    end ;;
    r <- ask (DatabasesGet namespace name) (fun h => dbsLister c h namespace name) ;;
    db <- match r with
          | Err e =>
              if notFound e then
                log WarningLevel ("database '" ++ key ++ "' in work queue no longer exists") ;;
                Return_ None
              else Return_ (Some e)
          | Ok db => ret db
          end ;;
    d <- load db ;;
    when (String.eqb (State (Status d)) "")
      (updateDatabaseStatus key db StatePending "Yet to initialize" ;; ret tt) ;;
    syncDatabase_reconcile key namespace db).

End Methods.
End DatabaseResource.

(** ** The second revision: the file that logs through [glog] *)

Module Part000.
Section Methods.

Variable c : Controller.

Definition MessageDatabaseSynced : string := "Database synced successfully".

(** [func (c *Controller) updateDatabaseStatus(key, db, state, msg)] *)
Definition updateDatabaseStatus {R} (key : string) (db : loc)
  (state msg : string) : M R (option loc * option error) :=
  call (
    copy <- DeepCopy db ;;
    modify copy (fun d => set_State d state) ;;
    modify copy (fun d => set_Message d msg) ;;
    d <- load db ;;
    cp <- load copy ;;
    err <- ask (DatabasesUpdate (Namespace (db_Meta d)) cp)
               (fun h => atlasclientset_Update c h (Namespace (db_Meta d)) cp) ;;
    match err with
    | Some e =>
        log HandleError ("error updating status to '" ++ state
                         ++ "' for database '" ++ key ++ "': " ++ Error e) ;;
        Return_ (Some db, err)
    | None =>
        d <- load db ;;
        r <- ask (DatabasesGet (Namespace (db_Meta d)) (Name (db_Meta d)))
                 (fun h => dbsLister c h (Namespace (db_Meta d)) (Name (db_Meta d))) ;;
        Return_ (res_obj r, res_err r)
    end).

(** [func (c *Controller) syncDatabaseSecret(key, dsn, db, dbServer, dbPlugin)] *)
Definition syncDatabaseSecret {R} (key dsn : string) (db : loc)
  (dbServer : option DatabaseServer) (dbPlugin : DatabasePlugin)
  : M R (option error) :=
  call (
    d <- load db ;;
    (if is_nil (Users (Spec d)) then
       log V4 " Database users not provided. Skip database secret creation" ;;
       Return_ None
     else ret tt) ;;
    r <- ask (SecretsGet (Namespace (db_Meta d)) (Name (db_Meta d)))
             (fun h => secretsLister c h (Namespace (db_Meta d)) (Name (db_Meta d))) ;;
    let secret := res_obj r in
    let errs := res_err r in
    let err : option error := None in
    d <- load db ;;
    (* each iteration reads its own element before it writes to it *)
    '(_, secret, _) <-
      forRange (elems (Users (Spec d))) 0
        (fun index user '(dsn, secret, err) =>
           let passwd := user_Password user in
           if String.eqb (user_Role user) "admin" then
             '(passwd, err) <-
               match user_PasswordFrom user with
               | Some from =>
                   d <- load db ;;
                   '(passwd, err) <-
                     ask (GetSecretFromValueSource (Namespace (db_Meta d)) from)
                         (fun h => getSecretFromValueSource c h
                                     (Namespace (db_Meta d)) from) ;;
                   match err with
                   | Some e =>
                       if notFound e then
                         let msg := "waiting for secret or configmap for "
                                    ++ user_Name user in
                         updateDatabaseStatus key db StatePending msg ;;
                         Return_ err
                       else ret tt
                   | None => ret tt
                   end ;;
                   modify db (fun d => set_User_Password d index passwd) ;;
                   ret (passwd, err)
               | None => ret (passwd, err)
               end ;;
             if IsNotFound errs then
               log V4 "Database secrets not found. Creating..." ;;
               dsn <- match dbServer with
                      | Some server =>
                          d <- load db ;;
                          ask (PluginDsn (user_Name user) passwd d server)
                              (fun h => PDsn dbPlugin h (user_Name user) passwd d server)
                      | None =>
                          let customDbServer := emptyDatabaseServer in
                          '(host, port) <- lift (getHostAndPort dsn) ;;
                          let customDbServer := set_Host customDbServer host in
                          let customDbServer := set_ServicePort customDbServer port in
                          d <- load db ;;
                          ask (PluginDsn (user_Name user) passwd d customDbServer)
                              (fun h => PDsn dbPlugin h (user_Name user) passwd d
                                          customDbServer)
                      end ;;
               d <- load db ;;
               let new := {| sec_Meta := objMeta c d "Secret";
                             StringData := [("dsn", dsn)] |} in
               r <- ask (SecretsCreate (Namespace (db_Meta d)) new)
                        (fun h => kubeclientset_Create c h (Namespace (db_Meta d)) new) ;;
               ret (dsn, res_obj r, res_err r)
             else ret (dsn, secret, err)
           else ret (dsn, secret, err))
        (dsn, secret, err) ;;
    match errs with
    | Some _ => Return_ errs
    | None => ret tt
    end ;;
    d <- load db ;;
    controlled <- lift (IsControlledBy secret d) ;;
    if negb controlled then
      sec <- deref "secret" secret ;;
      let msg := fmtMessageSecretExists c (Name (sec_Meta sec)) in
      emit (RecorderEvent (RefDatabaseServer dbServer) EventTypeWarning
              (ErrResourceExists c) msg) ;;
      Return_ (Some (Errorf msg))
    else
      Return_ None).

(** The DSN of the database, lines 100-130 of [syncDatabase]: the literal
    [Spec.Dsn], else the value [Spec.DsnFrom] points to, else the key "dsn" of
    the secret named after the server. *)
Definition syncDatabase_dsn (key : string) (db : loc)
  (s : option DatabaseServer) : M (option error) string :=
  d <- load db ;;
  let dsn := Dsn (Spec d) in
  if String.eqb dsn "" then
    match DsnFrom (Spec d) with
    | Some from =>
        let secretName := sel_Name (SecretKeyRef from) in
        d <- load db ;;
        '(dsn, err) <- ask (GetSecretFromValueSource (Namespace (db_Meta d)) from)
                           (fun h => getSecretFromValueSource c h
                                       (Namespace (db_Meta d)) from) ;;
        match err with
        | Some e =>
            (if notFound e then
               let msg := "waiting to get DSN for database `" ++ key
                          ++ "` from secret `" ++ secretName ++ "`" in
               updateDatabaseStatus key db StatePending msg ;;
               Return_ err
             else ret tt) ;;
            let msg := "failed to get valid DSN for database `" ++ key
                       ++ "` from secret `" ++ secretName ++ "`" in
            updateDatabaseStatus key db StateError msg ;;
            log HandleError msg ;;
            Return_ None
        | None => ret dsn
        end
    | None =>
        d <- load db ;;
        server <- deref "s" s ;;
        '(dsn, err) <- ask (GetSecretByName (Namespace (db_Meta d)) "dsn"
                              (Name (srv_Meta server)))
                           (fun h => getSecretByName c h (Namespace (db_Meta d))
                                       "dsn" (Name (srv_Meta server))) ;;
        match err with
        | Some e =>
            (if notFound e then
               let msg := "waiting to get DSN for database `" ++ key
                          ++ "` from secret `" ++ Name (srv_Meta server)
                          ++ "`" in
               updateDatabaseStatus key db StatePending msg ;;
               Return_ err
             else ret tt) ;;
            let msg := "failed to get valid DSN for database `" ++ key
                       ++ "` from secret `" ++ Name (srv_Meta server)
                       ++ "`" in
            updateDatabaseStatus key db StateError msg ;;
            log HandleError msg ;;
            Return_ None
        | None => ret dsn
        end
    end
  else ret dsn.

(** Lines 60-158 of [syncDatabase]: everything after the initial status. *)
Definition syncDatabase_reconcile (key namespace : string) (db : loc)
  : M (option error) (option error) :=
  d <- load db ;;
  s <- (if nonempty (Server (Spec d)) then
          r <- ask (DatabaseServersGet namespace (Server (Spec d)))
                   (fun h => serversLister c h namespace (Server (Spec d))) ;;
          match r with
          | Err e =>
              (if notFound e then
                 let msg := "waiting for database server '" ++ namespace ++ "/"
                            ++ Server (Spec d) ++ "'" in
                 updateDatabaseStatus key db StatePending msg ;;
                 ret tt
               else
                 log HandleError ("error retrieving database server '"
                                  ++ Server (Spec d) ++ "' for database '" ++ key
                                  ++ "': " ++ Error e)) ;;
              Return_ (Some e)
          | Ok server => ret (Some server)
          end
        else ret None) ;;
  d <- load db ;;
  let serverType := ServerType (Spec d) in
  (if String.eqb serverType "" && is_nil_ptr s then
     let msg := "database '" ++ key ++ "' has no serverType or server set" in
     updateDatabaseStatus key db StateError msg ;;
     log HandleError msg ;;
     Return_ None
   else ret tt) ;;
  p <- (if nonempty serverType then ret (NewDBPlugin c serverType)
        else server <- deref "s" s ;; ret (ActivePlugin c server)) ;;
  p <- match p with
       | None =>
           let msg := "database '" ++ key
                      ++ "' does not have a valid database plugin" in
           updateDatabaseStatus key db StateError msg ;;
           log HandleError msg ;;
           Return_ None
       | Some p => ret p
       end ;;
  dsn <- syncDatabase_dsn key db s ;;
  err <- syncDatabaseSecret key dsn db s p ;;
  match err with
  | Some e =>
      let msg := "error syncing database secrets '" ++ key ++ "': " ++ Error e in
      updateDatabaseStatus key db StateError msg ;;
      log HandleError msg ;;
      Return_ None
  | None => ret tt
  end ;;
  d <- load db ;;
  err <- ask (PluginSyncDatabase d dsn) (fun h => snd (SyncDatabase p h d dsn)) ;;
  match err with
  | Some e =>
      let msg := "error syncing database '" ++ key ++ "': " ++ Error e in
      updateDatabaseStatus key db StateError msg ;;
      log HandleError msg ;;
      Return_ err
  | None => ret tt
  end ;;
  let msg := "Successfully synced database '" ++ key ++ "'" in
  '(db, err) <- updateDatabaseStatus key db StateSuccess msg ;;
  match err with
  | Some e => log HandleError (Error e) ;; Return_ err
  | None => ret tt
  end ;;
  emit (RecorderEvent (RefDatabase db) EventTypeNormal (SuccessSynced c)
          MessageDatabaseSynced) ;;
  Return_ None.

(** [func (c *Controller) syncDatabase(key string) error]; the plugin's
    [SyncDatabase] has the error result only in this revision. *)
Definition syncDatabase {R} (key : string) : M R (option error) :=
  call (
    let '(namespace, name, err) := SplitMetaNamespaceKey key in
    match err with
    | Some _ => log HandleError ("invalid resource key: " ++ key) ;; Return_ None
    | None => ret tt
    end ;;
    r <- ask (DatabasesGet namespace name) (fun h => dbsLister c h namespace name) ;;
    db <- match r with
          | Err e =>
              if notFound e then
                log HandleError ("database '" ++ key
                                 ++ "' in work queue no longer exists") ;;
                Return_ None
              else Return_ (Some e)
          | Ok db => ret db
          end ;;
    d <- load db ;;
    db <- (if String.eqb (State (Status d)) "" then
             '(db, err) <- updateDatabaseStatus key db StatePending "" ;;
             match err with
             | Some _ => Return_ err
             | None => ret tt
             end ;;
             deref "db" db
           else ret db) ;;
    syncDatabase_reconcile key namespace db).

End Methods.
End Part000.

(** ** Vocabulary of the properties *)

(** The object [updateDatabaseStatus] sends to the API server. *)
Definition status_copy (d : Database) (state msg : string) : Database :=
  set_Message (set_State d state) msg.

(** The world a statement leaves behind, whichever way it ends. *)
Definition world_of {R A} (r : Result R A) : World :=
  match r with
  | Next _ w => w
  | Return _ w => w
  | Panicked _ w => w
  end.

Definition is_plugin_call (e : Effect) : bool :=
  match e with
  | PluginSyncDatabase _ _ | PluginDsn _ _ _ _ => true
  | _ => false
  end.



(** The calls that read a DSN or a password out of a secret or config map. *)
Definition is_lookup (e : Effect) : bool :=
  match e with
  | GetSecretFromValueSource _ _ | GetSecretByName _ _ _ => true
  | _ => false
  end.

Definition is_status_update (state : string) (e : Effect) : bool :=
  match e with
  | DatabasesUpdate _ copy => String.eqb (State (Status copy)) state
  | _ => false
  end.

(** [sub] occurs in [s]. *)
Definition contains (s sub : string) : Prop :=
  exists pre post, s = pre ++ sub ++ post.

(** What a call of [updateDatabaseStatus] on the object [d] at [db] does
    after the history [h], and what it returns; [lvl] is the level the
    revision logs a failure at. *)
Definition status_effects (c : Controller) (lvl : Level) (key : string)
  (d : Database) (state msg : string) (h : History) : list Effect :=
  let ns := Namespace (db_Meta d) in
  let copy := status_copy d state msg in
  DatabasesUpdate ns copy ::
  match atlasclientset_Update c h ns copy with
  | Some e => [Log lvl ("error updating status to '" ++ state
                        ++ "' for database '" ++ key ++ "': " ++ Error e)]
  | None => [DatabasesGet ns (Name (db_Meta d))]
  end.

Definition status_result (c : Controller) (db : loc) (d : Database)
  (state msg : string) (h : History) : option loc * option error :=
  let ns := Namespace (db_Meta d) in
  let copy := status_copy d state msg in
  match atlasclientset_Update c h ns copy with
  | Some e => (Some db, Some e)
  | None =>
      let r := dbsLister c (h ++ [DatabasesUpdate ns copy])%list ns (Name (db_Meta d)) in
      (res_obj r, res_err r)
  end.

Definition status_world (c : Controller) (lvl : Level) (key : string)
  (d : Database) (state msg : string) (w : World) : World :=
  {| heap := (heap w ++ [status_copy d state msg])%list;
     trace := (trace w ++ status_effects c lvl key d state msg (trace w))%list |}.

(** The text [getHostAndPort] splits at ':', the expression
    [strings.Split(strings.Split(dsn, "@")[1], "/")[0]] of the source where
    its indexing is in range: the text after the first '@' of the DSN, up to
    the next '@' or '/' (or the end). For "postgres://user:p@ss@host:5432/db"
    it is "ss". *)
Definition hostPort (dsn : string) : string :=
  hd EmptyString (Split (nth 1 (Split dsn "@") EmptyString) "/").

(** What both revisions of [updateDatabaseStatus] do, stated on the result
    [run] of a call on the object [d] at [db] in the world [w]. *)
Definition status_on_copy_only (c : Controller) (db : loc) (d : Database)
  (state msg : string) (w : World)
  (run : Result (option error) (option loc * option error)) : Prop :=
  exists (res : option loc * option error) (w' : World) (copy : loc)
         (sent : Database),
    run = Next res w'
    (* every object in memory before the call, the one passed in among
       them, is as it was *)
    /\ (forall l x, nth_error (heap w) l = Some x -> nth_error (heap w') l = Some x)
    (* the object written to and sent is a fresh one *)
    /\ nth_error (heap w) copy = None
    /\ nth_error (heap w') copy = Some sent
    /\ State (Status sent) = state /\ Message (Status sent) = msg
    /\ Spec sent = Spec d /\ db_Meta sent = db_Meta d
    /\ In (DatabasesUpdate (Namespace (db_Meta d)) sent) (trace w')
    (* a failed update returns the object passed in with the error *)
    /\ (forall e,
          atlasclientset_Update c (trace w) (Namespace (db_Meta d)) sent = Some e ->
          res = (Some db, Some e)).


(** The precedence of the three sources of the DSN, stated on the result
    [run] of the DSN step for the object [d] and the server [s] in the world
    [w]: the literal is taken without any lookup; else the value source of
    [Spec.DsnFrom] is looked up, and nothing else; else the key "dsn" of the
    secret named after the server is looked up, and nothing else. *)
Definition dsn_precedence (c : Controller) (d : Database)
  (s : option DatabaseServer) (w : World) (run : Result (option error) string)
  : Prop :=
  let ns := Namespace (db_Meta d) in
  (Dsn (Spec d) <> "" -> run = Next (Dsn (Spec d)) w)
  /\ (Dsn (Spec d) = "" ->
      forall from, DsnFrom (Spec d) = Some from ->
        (exists rest,
            trace (world_of run)
            = (trace w ++ GetSecretFromValueSource ns from :: rest)%list
            /\ forallb (fun e => negb (is_lookup e)) rest = true)
        /\ (forall v, getSecretFromValueSource c (trace w) ns from = (v, None) ->
              run = Next v {| heap := heap w;
                              trace := (trace w ++
                                        [GetSecretFromValueSource ns from])%list |}))
  /\ (Dsn (Spec d) = "" -> DsnFrom (Spec d) = None ->
      forall server, s = Some server ->
        let name := Name (srv_Meta server) in
        (exists rest,
            trace (world_of run)
            = (trace w ++ GetSecretByName ns "dsn" name :: rest)%list
            /\ forallb (fun e => negb (is_lookup e)) rest = true)
        /\ (forall v, getSecretByName c (trace w) ns "dsn" name = (v, None) ->
              run = Next v {| heap := heap w;
                              trace := (trace w ++
                                        [GetSecretByName ns "dsn" name])%list |})).

(** The world after [syncDatabase] has found the database under its key:
    [logged] is what the revision logged before the lookup. *)
Definition found (logged : list Effect) (namespace name : string) (w : World)
  : World :=
  {| heap := heap w;
     trace := (trace w ++ logged ++ [DatabasesGet namespace name])%list |}.

(** The line the first revision logs when it starts on a key. *)
Definition processing (key : string) : list Effect :=
  [Log InfoLevel ("Processing database : " ++ key)].

(** The outcome of an attempt on a database that names neither a server nor
    a server type, stated on the result [run] of [syncDatabase] started in
    [w] on the object [d]: it returns nil, it has sent a status update that
    sets [Error] and a message with the key in it, and none of its calls is
    a call of a plugin. *)
Definition misconfiguration_reported (key : string) (d : Database) (w : World)
  (run : Result (option error) (option error)) : Prop :=
  exists (w' : World) (added : list Effect) (copy : Database),
    run = Next None w'
    /\ trace w' = (trace w ++ added)%list
    /\ In (DatabasesUpdate (Namespace (db_Meta d)) copy) added
    /\ State (Status copy) = StateError
    /\ contains (Message (Status copy)) key
    /\ forallb (fun e => negb (is_plugin_call e)) added = true.



(** The passwords in [Spec.Users] of the object at [db]. *)
Definition passwords_at (w : World) (db : loc) : option (list string) :=
  option_map (fun d => map user_Password (elems (Users (Spec d))))
    (nth_error (heap w) db).

(** A status update that sends [Success] together with these passwords in
    the spec. *)
Definition sends_passwords (passwords : list string) (e : Effect) : bool :=
  match e with
  | DatabasesUpdate _ copy =>
      String.eqb (State (Status copy)) StateSuccess
      && if list_eq_dec string_dec
              (map user_Password (elems (Users (Spec copy)))) passwords
         then true else false
  | _ => false
  end.

(** ** A concrete cluster

    One [Database] [default/mydb] in the cache, at address 0, and
    collaborators that answer the same whatever happened before. *)

Module Scenario.

Definition errNotFound (what : string) : error :=
  {| notFound := true; Error := what ++ " not found" |}.

Definition errConflict : error :=
  {| notFound := false; Error := "the object has been modified" |}.

(** A plugin whose [SyncDatabase] succeeds with [state]. *)
Definition plugin (state : string) : DatabasePlugin :=
  {| SyncDatabase := fun _ _ _ => (state, None);
     PDsn := fun _ user passwd _ server =>
               "postgres://" ++ user ++ ":" ++ passwd ++ "@"
               ++ DBHost (srv_Spec server) ++ Host (srv_Spec server) |}.

Definition ownedMeta (d : Database) : ObjectMeta :=
  {| Namespace := Namespace (db_Meta d); Name := Name (db_Meta d); UID := "";
     OwnerReferences :=
       [{| ref_UID := UID (db_Meta d); ref_Controller := Some true |}] |}.

(** [updateErr] is what every status update answers, [secret] what the
    secrets lister answers, [state] what the plugin's [SyncDatabase] reports,
    [password] what every lookup of a value source answers. *)
Definition controller (updateErr : option error) (secret : Res Secret)
  (state : string) (password : string * option error) : Controller :=
  {| dbsLister := fun _ ns name =>
       if String.eqb ns "default" && String.eqb name "mydb" then Ok 0
       else Err (errNotFound name);
     serversLister := fun _ _ name => Err (errNotFound name);
     secretsLister := fun _ _ _ => secret;
     atlasclientset_Update := fun _ _ _ => updateErr;
     kubeclientset_Create := fun _ _ new => Ok new;
     getSecretFromValueSource := fun _ _ _ => password;
     getSecretByName := fun _ _ _ _ => ("postgres://root:pw@pg:5432/", None);
     NewDBPlugin := fun _ => Some (plugin state);
     ActivePlugin := fun _ => Some (plugin state);
     objMeta := fun d _ => ownedMeta d;
     fmtMessageDatabaseSynced := fun _ => "Database synced successfully";
     fmtMessageSecretCreated := fun name => "Secret " ++ name ++ " created";
     fmtMessageSecretExists := fun name => "Secret " ++ name ++ " already exists";
     ErrResourceExists := "ErrResourceExists";
     SuccessSynced := "Synced" |}.

Definition database (server serverType dsn : string)
  (users : slice DatabaseUser) (state : string) : Database :=
  {| db_Meta := {| Namespace := "default"; Name := "mydb"; UID := "uid-1";
                   OwnerReferences := [] |};
     Spec := {| Server := server; ServerType := serverType; Dsn := dsn;
                DsnFrom := None; Users := users |};
     Status := {| State := state; Message := "" |} |}.

(** An admin user whose password is to be read from a secret. *)
Definition admin : DatabaseUser :=
  {| user_Name := "admin"; user_Role := "admin"; user_Password := "";
     user_PasswordFrom :=
       Some {| SecretKeyRef := {| sel_Name := "admin-pw"; sel_Key := "password" |} |} |}.

(** A secret named after the database that some other resource owns. *)
Definition foreignSecret : Secret :=
  {| sec_Meta := {| Namespace := "default"; Name := "mydb"; UID := "uid-9";
                    OwnerReferences :=
                      [{| ref_UID := "uid-2"; ref_Controller := Some true |}] |};
     StringData := [("dsn", "postgres://else")] |}.

Definition pgServer : DatabaseServer :=
  {| srv_Meta := {| Namespace := "default"; Name := "pg"; UID := "uid-3";
                    OwnerReferences := [] |};
     srv_Spec := {| Host := "pg.default"; DBHost := "pg.default";
                    ServicePort := 5432 |} |}.

(** The memory at the start of an attempt: the cache-owned object alone. *)
Definition start (d : Database) : World := {| heap := [d]; trace := [] |}.

(** The cluster in which everything is in place for a first, successful
    attempt: status updates succeed, no secret exists yet. *)
Definition healthy : Controller :=
  controller None (Err (errNotFound "mydb")) StateSuccess ("s3cret", None).

(** The same cluster when every status update fails. *)
Definition failingUpdates : Controller :=
  controller (Some errConflict) (Err (errNotFound "mydb")) StateSuccess
    ("s3cret", None).

(** The same cluster when the plugin reports that it created the database. *)
Definition creating : Controller :=
  controller None (Err (errNotFound "mydb")) StateCreated ("s3cret", None).

(** A cluster in which a foreign secret has the name of the database. *)
Definition conflicting : Controller :=
  controller None (Ok foreignSecret) StateSuccess ("s3cret", None).

(** The same, when the password of the admin user is not there yet. *)
Definition conflictingNoPassword : Controller :=
  controller None (Ok foreignSecret) StateSuccess ("", Some (errNotFound "admin-pw")).

(** A database on the server "pg": synced before, no users declared. *)
Definition noUsers : Database := database "pg" "" "" nil_slice StateSuccess.

(** The same with [users: []], an empty list that is not nil. *)
Definition emptyUsers : Database := database "pg" "" "" (slice_of []) StateSuccess.


(** A database without server and without server type. *)
Definition misconfigured : Database := database "" "" "" nil_slice "".

(** A new database with a server type, no server and its own DSN. *)
Definition standalone : Database :=
  database "" "postgres" "postgres://u:p@db.example.com:5432/mydb"
    (slice_of [admin]) "".

(** A database with a server type, no server and no DSN of its own. *)
Definition typedOnly : Database := database "" "postgres" "" nil_slice "".

(** A database with a server type, no server, its own DSN and no users
    declared. *)
Definition standaloneNoUsers : Database :=
  database "" "postgres" "postgres://u:p@db.example.com:5432/mydb" nil_slice
    StateSuccess.

(** A database with a server type and no server, whose DSN is to be read
    from a secret. *)
Definition dsnFromSecret : Database :=
  {| db_Meta := db_Meta typedOnly;
     Spec := {| Server := ""; ServerType := "postgres"; Dsn := "";
                DsnFrom :=
                  Some {| SecretKeyRef := {| sel_Name := "mydb-dsn";
                                             sel_Key := "dsn" |} |};
                Users := nil_slice |};
     Status := {| State := StateSuccess; Message := "" |} |}.

Definition errRefused : error :=
  {| notFound := false; Error := "connection refused" |}.

(** A plugin whose [SyncDatabase] fails. *)
Definition failingPlugin : DatabasePlugin :=
  {| SyncDatabase := fun _ _ _ => ("", Some errRefused);
     PDsn := PDsn (plugin "") |}.

(** The healthy cluster with another plugin registry: [registry] is what
    both [NewDBPlugin] and [ActivePlugin] answer. *)
Definition withRegistry (registry : option DatabasePlugin) : Controller :=
  {| dbsLister := dbsLister healthy;
     serversLister := serversLister healthy;
     secretsLister := secretsLister healthy;
     atlasclientset_Update := atlasclientset_Update healthy;
     kubeclientset_Create := kubeclientset_Create healthy;
     getSecretFromValueSource := getSecretFromValueSource healthy;
     getSecretByName := getSecretByName healthy;
     NewDBPlugin := fun _ => registry;
     ActivePlugin := fun _ => registry;
     objMeta := objMeta healthy;
     fmtMessageDatabaseSynced := fmtMessageDatabaseSynced healthy;
     fmtMessageSecretCreated := fmtMessageSecretCreated healthy;
     fmtMessageSecretExists := fmtMessageSecretExists healthy;
     ErrResourceExists := ErrResourceExists healthy;
     SuccessSynced := SuccessSynced healthy |}.



End Scenario.

(** ** More vocabulary *)

(** The decimal numeral of [n], as [strconv.Itoa] and the [%d] of a DSN
    template print a port. *)
Definition Itoa (n : nat) : string := NilEmpty.string_of_uint (Nat.to_uint n).

(** A statement that keeps [I]: when it is started in a world where [I]
    holds, [I] holds in the world it leaves behind, whichever way it ends. *)
Definition Keeps (I : World -> Prop) {R A} (m : M R A) : Prop :=
  forall w, I w -> I (world_of (m w)).

(** An object with its passwords blanked. *)
Definition forget_passwords (d : Database) : Database :=
  {| db_Meta := db_Meta d;
     Spec := {| Server := Server (Spec d); ServerType := ServerType (Spec d);
                Dsn := Dsn (Spec d); DsnFrom := DsnFrom (Spec d);
                Users := match Users (Spec d) with
                         | nil_slice => nil_slice
                         | slice_of l =>
                             slice_of (map (fun u => set_Password u "") l)
                         end |};
     Status := Status d |}.

(** The memory [h'] extends the memory [h] and differs from it in nothing
    but passwords: every object of [h] is in [h'], at the same address, the
    same but for the passwords of its users. *)
Definition only_passwords_differ (h h' : list Database) : Prop :=
  forall l d, nth_error h l = Some d ->
    exists d', nth_error h' l = Some d'
               /\ forget_passwords d' = forget_passwords d.

(** The memory of [w] differs from the memory [h0] in nothing but
    passwords. *)
Definition framed (h0 : list Database) (w : World) : Prop :=
  only_passwords_differ h0 (heap w).

(** ** Properties of [Split] *)

Lemma Split_length s c : List.length (Split s c) = S (count_byte c s).
Proof.
  induction s as [|a s IH]; simpl; [reflexivity|].
  destruct (Ascii.eqb a c); simpl.
  - now rewrite IH.
  - destruct (Split s c) as [|h t]; simpl in *; [discriminate|exact IH].
Qed.

Lemma Split_nonempty s c : Split s c <> [].
Proof.
  intros H. pose proof (Split_length s c) as L. rewrite H in L. discriminate.
Qed.

Lemma Split_no_sep s c : count_byte c s = 0 -> Split s c = [s].
Proof.
  induction s as [|a s IH]; simpl; [reflexivity|].
  destruct (Ascii.eqb a c); simpl; [discriminate|].
  intros H. now rewrite (IH H).
Qed.

Lemma Split_app s c t :
  count_byte c s = 0 -> Split (s ++ String c t) c = s :: Split t c.
Proof.
  induction s as [|a s IH]; simpl.
  - now rewrite Ascii.eqb_refl.
  - destruct (Ascii.eqb a c); simpl; [discriminate|].
    intros H. now rewrite (IH H).
Qed.

Lemma Split_prepend s c t :
  count_byte c s = 0 ->
  Split (s ++ t) c = (s ++ hd EmptyString (Split t c)) :: tl (Split t c).
Proof.
  induction s as [|a s IH]; simpl.
  - intros _. pose proof (Split_nonempty t c) as N.
    destruct (Split t c); [contradiction|reflexivity].
  - destruct (Ascii.eqb a c); simpl; [discriminate|].
    intros H. now rewrite (IH H).
Qed.

Example Split_at :
  Split "postgres://u:p@db.example.com:5432/mydb" "@"
  = ["postgres://u:p"; "db.example.com:5432/mydb"].
Proof. reflexivity. Qed.

Example Atoi_5432 : Atoi "5432" = (5432%Z, None).
Proof. reflexivity. Qed.

Example Atoi_syntax : Atoi "54x2" = (0%Z, Some ErrSyntax).
Proof. reflexivity. Qed.


(** ** [getHostAndPort] *)

Lemma append_nil_r (s : string) : s ++ "" = s.
Proof. induction s as [|a s IH]; simpl; [reflexivity|now rewrite IH]. Qed.

Lemma append_assoc (s t u : string) : (s ++ t) ++ u = s ++ t ++ u.
Proof. induction s as [|a s IH]; simpl; [reflexivity|now rewrite IH]. Qed.

Lemma count_byte_app c (s t : string) :
  count_byte c (s ++ t) = count_byte c s + count_byte c t.
Proof. induction s as [|a s IH]; simpl; [reflexivity|rewrite IH; lia]. Qed.

Lemma index_head {A} (x : A) (l : list A) : index (x :: l) 0 = Value x.
Proof. reflexivity. Qed.

Lemma index_second {A} (x y : A) (l : list A) : index (x :: y :: l) 1 = Value y.
Proof. reflexivity. Qed.

(** With n separators there are n + 1 parts: an index up to n is in range. *)
Lemma index_Split_in_range s c i :
  i <= count_byte c s -> index (Split s c) i = Value (nth i (Split s c) EmptyString).
Proof.
  intros H. unfold index.
  destruct (nth_error (Split s c) i) as [x|] eqn:E.
  - now rewrite (nth_error_nth _ _ _ E).
  - apply nth_error_None in E. rewrite Split_length in E. lia.
Qed.

Lemma index_Split_out_of_range s c i :
  count_byte c s < i ->
  index (Split s c) i = Panics (IndexOutOfRange i (S (count_byte c s))).
Proof.
  intros H. unfold index.
  destruct (nth_error (Split s c) i) as [x|] eqn:E.
  - assert (i < List.length (Split s c)) as L
      by (apply nth_error_Some; congruence).
    rewrite Split_length in L. lia.
  - now rewrite Split_length.
Qed.

Lemma hd_Split_index s c : index (Split s c) 0 = Value (hd EmptyString (Split s c)).
Proof.
  pose proof (Split_nonempty s c). destruct (Split s c); [contradiction|reflexivity].
Qed.

Lemma ParseUint_loop_error s : forall n,
  (snd (ParseUint_loop s n) = Some ErrSyntax -> fst (ParseUint_loop s n) = 0%Z)
  /\ (snd (ParseUint_loop s n) = Some ErrRange ->
      fst (ParseUint_loop s n) = maxUint64).
Proof.
  induction s as [|c s IH]; intros n; cbn [ParseUint_loop].
  - split; discriminate.
  - destruct (digit_of c) as [d|]; [|split; [reflexivity|discriminate]].
    destruct (maxUint64 / 10 + 1 <=? n)%Z; [split; [discriminate|reflexivity]|].
    cbv zeta.
    destruct (maxUint64 <? n * 10 + d)%Z; [split; [discriminate|reflexivity]|].
    apply IH.
Qed.

Lemma ParseUint_error s :
  (snd (ParseUint s) = Some ErrSyntax -> fst (ParseUint s) = 0%Z)
  /\ (snd (ParseUint s) = Some ErrRange -> fst (ParseUint s) = maxUint64).
Proof.
  destruct s as [|a s]; [split; [reflexivity|discriminate]|].
  apply ParseUint_loop_error.
Qed.

Lemma ParseInt_error s :
  (snd (ParseInt s) = Some ErrSyntax -> fst (ParseInt s) = 0%Z)
  /\ (snd (ParseInt s) = Some ErrRange ->
      fst (ParseInt s) = maxInt64 \/ fst (ParseInt s) = minInt64).
Proof.
  destruct s as [|a s]; [split; [reflexivity|discriminate]|].
  unfold ParseInt. cbv zeta.
  destruct (ParseUint _) as [un [[|]|]];
    [split; [reflexivity|discriminate]| |];
    (destruct (negb (Ascii.eqb a "-") && (2 ^ 63 <=? un)%Z);
     [split; [discriminate|left; reflexivity]|]);
    (destruct (Ascii.eqb a "-" && (2 ^ 63 <? un)%Z);
     [split; [discriminate|right; reflexivity]|]);
    split; discriminate.
Qed.

(** A syntax error of [Atoi] comes with the value 0. *)
Lemma Atoi_syntax_zero s : snd (Atoi s) = Some ErrSyntax -> fst (Atoi s) = 0%Z.
Proof.
  unfold Atoi. cbv zeta.
  destruct ((0 <? String.length s)%nat && (String.length s <? 19)%nat);
    [|apply ParseInt_error].
  destruct s as [|a s]; [reflexivity|].
  destruct (_ && _); [reflexivity|].
  destruct (parse_digits _ 0); [discriminate|reflexivity].
Qed.

(** A range error of [Atoi] comes with the nearest bound of a 64-bit [int]. *)
Lemma Atoi_range_bound s :
  snd (Atoi s) = Some ErrRange ->
  fst (Atoi s) = maxInt64 \/ fst (Atoi s) = minInt64.
Proof.
  unfold Atoi. cbv zeta.
  destruct ((0 <? String.length s)%nat && (String.length s <? 19)%nat);
    [|apply ParseInt_error].
  destruct s as [|a s]; [discriminate|].
  destruct (_ && _); [discriminate|].
  destruct (parse_digits _ 0); discriminate.
Qed.

(** The part of a DSN that [getHostAndPort] splits at ':' is the text after
    the first '@' of the DSN, up to the next '@' or '/'. *)
Lemma hostPort_segment (cred seg rest : string) :
  count_byte "@" cred = 0 -> count_byte "@" seg = 0 -> count_byte "/" seg = 0 ->
  rest = "" \/ (exists t, rest = String "@" t) \/ (exists t, rest = String "/" t) ->
  hostPort (cred ++ String "@" (seg ++ rest)) = seg.
Proof.
  intros Hc Hs1 Hs2 Hr. unfold hostPort.
  rewrite (Split_app cred "@" _ Hc). cbn [nth].
  destruct Hr as [-> | [[t ->] | [t ->]]].
  - rewrite append_nil_r, (Split_no_sep seg "@" Hs1). cbn [nth].
    now rewrite (Split_no_sep seg "/" Hs2).
  - rewrite (Split_app seg "@" t Hs1). cbn [nth].
    now rewrite (Split_no_sep seg "/" Hs2).
  - rewrite (Split_prepend seg "@" _ Hs1). cbn [nth].
    cbn [Split]. change (Ascii.eqb "/" "@") with false. cbv iota.
    pose proof (Split_nonempty t "@") as N.
    destruct (Split t "@") as [|h r]; [contradiction|]. cbn [hd].
    now rewrite (Split_app seg "/" h Hs2).
Qed.

(** The result of [getHostAndPort] on every DSN on which both indexings at 1
    are in range. *)
Lemma getHostAndPort_in_range (dsn : string) :
  0 < count_byte "@" dsn ->
  0 < count_byte ":" (hostPort dsn) ->
  getHostAndPort dsn
  = Value (hd EmptyString (Split (hostPort dsn) ":"),
           int32 (fst (Atoi (nth 1 (Split (hostPort dsn) ":") EmptyString)))).
Proof.
  intros Hat Hcolon. unfold getHostAndPort.
  rewrite (index_Split_in_range dsn "@" 1) by lia. cbn [obind].
  rewrite hd_Split_index. cbn [obind]. fold (hostPort dsn).
  rewrite hd_Split_index. cbn [obind].
  rewrite (index_Split_in_range (hostPort dsn) ":" 1) by lia. cbn [obind].
  destruct (Atoi _) as [portInt err]. reflexivity.
Qed.

(** A DSN of the shape [credentials@host:port], with or without a path. *)
Lemma getHostAndPort_shape (cred host port tail : string) :
  count_byte "@" cred = 0 -> plain host -> plain port ->
  tail = "" \/ (exists t, tail = String "/" t) ->
  getHostAndPort (cred ++ String "@" (host ++ String ":" (port ++ tail)))
  = Value (host, int32 (fst (Atoi port))).
Proof.
  intros Hc (Hh1 & Hh2 & Hh3) (Hp1 & Hp2 & Hp3) Ht.
  set (X := host ++ String ":" port).
  assert (count_byte "@" X = 0) as X1
    by (unfold X; rewrite count_byte_app; simpl; lia).
  assert (count_byte "/" X = 0) as X2
    by (unfold X; rewrite count_byte_app; simpl; lia).
  assert (Split X ":" = [host; port]) as X3
    by (unfold X; rewrite (Split_app host ":" port Hh3), (Split_no_sep port ":" Hp3);
        reflexivity).
  assert (host ++ String ":" (port ++ tail) = X ++ tail) as E
    by (unfold X; rewrite append_assoc; reflexivity).
  unfold getHostAndPort.
  rewrite (Split_app cred "@" _ Hc), E, (Split_prepend X "@" tail X1).
  rewrite index_second. cbn [obind].
  assert (index (Split (X ++ hd "" (Split tail "@")) "/") 0 = Value X) as S0.
  { destruct Ht as [-> | [t ->]].
    - simpl hd. rewrite append_nil_r, (Split_no_sep X "/" X2). reflexivity.
    - simpl Split. pose proof (Split_nonempty t "@") as N.
      destruct (Split t "@") as [|h r]; [contradiction|].
      simpl hd. rewrite (Split_app X "/" h X2). reflexivity. }
  rewrite S0. cbn [obind]. rewrite X3, index_head, index_second. cbn [obind].
  destruct (Atoi port) as [portInt err]. reflexivity.
Qed.

(** C9: on "postgres://u:p@db.example.com:5432/mydb" [getHostAndPort] returns
    host "db.example.com" and port 5432; it returns the same on that DSN
    without its path, and on every DSN [credentials@host:port] without a
    path it returns [host] and the port [port] read as a number. *)
Theorem getHostAndPort_example :
  getHostAndPort "postgres://u:p@db.example.com:5432/mydb"
  = Value ("db.example.com", 5432%Z)
  /\ getHostAndPort "postgres://u:p@db.example.com:5432"
     = Value ("db.example.com", 5432%Z)
  /\ (forall cred host port : string,
        count_byte "@" cred = 0 -> plain host -> plain port ->
        getHostAndPort (cred ++ String "@" (host ++ String ":" port))
        = Value (host, int32 (fst (Atoi port)))).
Proof.
  split; [reflexivity|]. split; [reflexivity|].
  intros cred host port Hc Hh Hp.
  rewrite <- (append_nil_r port) at 1.
  apply getHostAndPort_shape; auto.
Qed.

(** C1, as the code has it: [getHostAndPort] has no error result. Let the
    host-and-port text of a DSN be what the code splits at ':', the text
    after the first '@' of the DSN up to the next '@' or '/'. On every DSN
    that contains an '@' and whose host-and-port text contains a ':',
    [getHostAndPort] returns, without a panic, the text before the first ':'
    as the host and, as the port, [int32] of the value [strconv.Atoi]
    returns for the text between the first and the second ':'. The error of
    [Atoi] is discarded: on a syntax error the port is 0, on a range error
    it is -1 or 0 (the bounds of [int] cut to 32 bits), and in neither case
    does the caller get an error. *)
Theorem getHostAndPort_reports_no_parse_error (dsn : string) :
  0 < count_byte "@" dsn ->
  0 < count_byte ":" (hostPort dsn) ->
  let host := hd EmptyString (Split (hostPort dsn) ":") in
  let portText := nth 1 (Split (hostPort dsn) ":") EmptyString in
  getHostAndPort dsn = Value (host, int32 (fst (Atoi portText)))
  /\ (snd (Atoi portText) = Some ErrSyntax ->
      getHostAndPort dsn = Value (host, 0%Z))
  /\ (snd (Atoi portText) = Some ErrRange ->
      getHostAndPort dsn = Value (host, (-1)%Z)
      \/ getHostAndPort dsn = Value (host, 0%Z))
  /\ (forall cred seg rest : string,
        dsn = cred ++ String "@" (seg ++ rest) ->
        count_byte "@" cred = 0 ->
        count_byte "@" seg = 0 -> count_byte "/" seg = 0 ->
        rest = "" \/ (exists t, rest = String "@" t)
        \/ (exists t, rest = String "/" t) ->
        hostPort dsn = seg).
Proof.
  intros Hat Hcolon host portText.
  pose proof (getHostAndPort_in_range dsn Hat Hcolon) as E.
  split; [exact E|]. split; [|split].
  - intros Hs. rewrite E. fold portText.
    now rewrite (Atoi_syntax_zero _ Hs).
  - intros Hr. rewrite E. fold portText. fold host.
    destruct (Atoi_range_bound _ Hr) as [-> | ->]; [left|right]; reflexivity.
  - intros cred seg rest -> Hc Hs1 Hs2 Hr. now apply hostPort_segment.
Qed.

Lemma getHostAndPort_reports_no_parse_error_witness :
  0 < count_byte "@" "postgres://u:p@db.example.com:54x2/mydb"
  /\ 0 < count_byte ":" (hostPort "postgres://u:p@db.example.com:54x2/mydb")
  /\ getHostAndPort "postgres://u:p@db.example.com:54x2/mydb"
     = Value ("db.example.com", 0%Z).
Proof.
  split; [vm_compute; lia|]. split; [vm_compute; lia|].
  apply (getHostAndPort_reports_no_parse_error
           "postgres://u:p@db.example.com:54x2/mydb");
    [vm_compute; lia | vm_compute; lia | reflexivity].
Defined.

(** Where the indexing at 1 is out of range: a DSN without '@', and a DSN
    whose text after the '@' has no ':' before the next '/'. *)
Lemma getHostAndPort_without_at (dsn : string) :
  count_byte "@" dsn = 0 -> getHostAndPort dsn = Panics (IndexOutOfRange 1 1).
Proof.
  intros H. unfold getHostAndPort.
  rewrite (index_Split_out_of_range dsn "@" 1) by lia.
  now rewrite H.
Qed.

Lemma getHostAndPort_without_port (dsn : string) :
  0 < count_byte "@" dsn -> count_byte ":" (hostPort dsn) = 0 ->
  getHostAndPort dsn = Panics (IndexOutOfRange 1 1).
Proof.
  intros Hat H. unfold getHostAndPort.
  rewrite (index_Split_in_range dsn "@" 1) by lia. cbn [obind].
  rewrite hd_Split_index. cbn [obind]. fold (hostPort dsn).
  rewrite hd_Split_index. cbn [obind].
  rewrite (index_Split_out_of_range (hostPort dsn) ":" 1) by lia.
  now rewrite H.
Qed.

(** C1 as stated fails: a DSN without a port segment and a DSN without '@'
    make [getHostAndPort] panic, and a DSN whose port is not a number yields
    port 0, the result of a DSN whose port is 0, and no error. *)
Lemma getHostAndPort_malformed_counterexample :
  getHostAndPort "postgres://u:p@db.example.com/mydb"
  = Panics (IndexOutOfRange 1 1)
  /\ getHostAndPort "postgres://db.example.com:5432/mydb"
     = Panics (IndexOutOfRange 1 1)
  /\ getHostAndPort "postgres://u:p@db.example.com:54x2/mydb"
     = Value ("db.example.com", 0%Z)
  /\ getHostAndPort "postgres://u:p@db.example.com:0/mydb"
     = Value ("db.example.com", 0%Z).
Proof. repeat split; reflexivity. Qed.

(** Where the code and a reading of the DSN by its first '@' and next '/'
    part: a second '@' before the '/' ends the host-and-port text, and
    the indexing at 1 panics although a ':' follows. *)
Example getHostAndPort_second_at :
  hostPort "postgres://user:p@ss@host:5432/db" = "ss"
  /\ getHostAndPort "postgres://user:p@ss@host:5432/db"
     = Panics (IndexOutOfRange 1 1).
Proof. split; reflexivity. Qed.

(** [Atoi] reports the range error at the digit that overflows, before the
    byte that is not a digit is reached: the port is -1, not 0. *)
Example getHostAndPort_overflowing_port :
  Atoi "99999999999999999999x" = (maxInt64, Some ErrRange)
  /\ Atoi "9999999999999999999x" = (0%Z, Some ErrSyntax)
  /\ getHostAndPort "postgres://u:p@db.example.com:99999999999999999999x/mydb"
     = Value ("db.example.com", (-1)%Z)
  /\ getHostAndPort "postgres://u:p@db.example.com:-99999999999999999999/mydb"
     = Value ("db.example.com", 0%Z).
Proof. repeat split; reflexivity. Qed.

(** ** Memory *)

Lemma nth_error_snoc_last {A} (l : list A) (x : A) :
  nth_error (l ++ [x]) (List.length l) = Some x.
Proof. rewrite nth_error_app2, Nat.sub_diag by lia. reflexivity. Qed.

Lemma nth_error_snoc_old {A} (l : list A) (x y : A) (i : nat) :
  nth_error l i = Some y -> nth_error (l ++ [x]) i = Some y.
Proof.
  intros H. rewrite nth_error_app1; [exact H|].
  apply nth_error_Some. congruence.
Qed.

Lemma update_nth_snoc_last {A} (l : list A) (x : A) (f : A -> A) :
  update_nth (l ++ [x]) (List.length l) f = (l ++ [f x])%list.
Proof. induction l as [|a l IH]; simpl; [reflexivity|now rewrite IH]. Qed.


Lemma nth_error_update_nth_same {A} (l : list A) (i : nat) (f : A -> A) (x : A) :
  nth_error l i = Some x -> nth_error (update_nth l i f) i = Some (f x).
Proof.
  revert i. induction l as [|a l IH]; intros [|i]; simpl; try discriminate.
  - now intros [= ->].
  - apply IH.
Qed.


(** ** Running a body statement by statement *)

Section Steps.
Context {R A B : Type}.
Variable k : A -> M R B.
Variable w : World.

Lemma bind_assoc {C} (m : M R C) (f : C -> M R A) :
  bind (bind m f) k w = bind m (fun x => bind (f x) k) w.
Proof. unfold bind. destruct (m w); reflexivity. Qed.

Lemma bind_ret (a : A) : bind (ret a) k w = k a w.
Proof. reflexivity. Qed.

Lemma bind_Return (r : R) : bind (Return_ r) k w = Return r w.
Proof. reflexivity. Qed.

Lemma bind_panic (p : Panic) : bind (panic p) k w = Panicked p w.
Proof. reflexivity. Qed.

Lemma bind_ask (e : Effect) (f : History -> A) :
  bind (ask e f) k w
  = k (f (trace w)) {| heap := heap w; trace := (trace w ++ [e])%list |}.
Proof. reflexivity. Qed.

End Steps.

Section StepsMemory.
Context {R B : Type}.
Variable w : World.
Variable db : loc.
Variable d : Database.
Hypothesis Hdb : nth_error (heap w) db = Some d.

Lemma bind_load (k : Database -> M R B) : bind (load db) k w = k d w.
Proof. unfold bind, load. now rewrite Hdb. Qed.

Lemma bind_modify (f : Database -> Database) (k : unit -> M R B) :
  bind (modify db f) k w
  = k tt {| heap := update_nth (heap w) db f; trace := trace w |}.
Proof. unfold bind, modify. now rewrite Hdb. Qed.

Lemma bind_DeepCopy (k : loc -> M R B) :
  bind (DeepCopy db) k w
  = k (List.length (heap w))
      {| heap := (heap w ++ [d])%list; trace := trace w |}.
Proof. unfold bind, DeepCopy. now rewrite Hdb. Qed.

End StepsMemory.

Lemma bind_emit {R B} (e : Effect) (k : unit -> M R B) (w : World) :
  bind (emit e) k w = k tt {| heap := heap w; trace := (trace w ++ [e])%list |}.
Proof. reflexivity. Qed.

Lemma bind_log {R B} (lvl : Level) (msg : string) (k : unit -> M R B) (w : World) :
  bind (log lvl msg) k w
  = k tt {| heap := heap w; trace := (trace w ++ [Log lvl msg])%list |}.
Proof. reflexivity. Qed.

(** ** [updateDatabaseStatus] *)

Lemma status_copy_run (c : Controller) (lvl : Level) (key : string) (db : loc)
  (state msg : string) (w : World) (d : Database)
  (rest : loc -> Database -> Database -> M (option loc * option error)
                                           (option loc * option error)) :
  nth_error (heap w) db = Some d ->
  (copy <- DeepCopy db ;;
   modify copy (fun d => set_State d state) ;;
   modify copy (fun d => set_Message d msg) ;;
   d <- load db ;;
   cp <- load copy ;;
   rest copy d cp) w
  = rest (List.length (heap w)) d (status_copy d state msg)
      {| heap := (heap w ++ [status_copy d state msg])%list; trace := trace w |}.
Proof.
  intros H.
  rewrite (bind_DeepCopy _ _ _ H).
  erewrite bind_modify by (cbn [heap]; apply nth_error_snoc_last).
  cbn [heap trace]. rewrite update_nth_snoc_last.
  erewrite bind_modify by (cbn [heap]; apply nth_error_snoc_last).
  cbn [heap trace]. rewrite update_nth_snoc_last.
  erewrite bind_load by (cbn [heap]; apply nth_error_snoc_old, H).
  erewrite bind_load by (cbn [heap]; apply nth_error_snoc_last).
  reflexivity.
Qed.

Lemma DatabaseResource_updateDatabaseStatus_run (c : Controller) (R : Type)
  (key : string) (db : loc) (state msg : string) (w : World) (d : Database) :
  nth_error (heap w) db = Some d ->
  @DatabaseResource.updateDatabaseStatus c R key db state msg w
  = Next (status_result c db d state msg (trace w))
         (status_world c WarningLevel key d state msg w).
Proof.
  intros H. unfold DatabaseResource.updateDatabaseStatus, call.
  rewrite (status_copy_run c WarningLevel key db state msg w d _ H).
  rewrite bind_ask. cbn [heap trace].
  unfold status_result, status_world, status_effects.
  destruct (atlasclientset_Update c (trace w) (Namespace (db_Meta d))
              (status_copy d state msg)) as [e|].
  - rewrite bind_log. cbn [heap trace]. unfold Return_.
    now rewrite <- app_assoc.
  - erewrite bind_load by (cbn [heap]; apply nth_error_snoc_old, H).
    rewrite bind_ask. cbn [heap trace]. unfold Return_.
    now rewrite <- app_assoc.
Qed.

Lemma Part000_updateDatabaseStatus_run (c : Controller) (R : Type)
  (key : string) (db : loc) (state msg : string) (w : World) (d : Database) :
  nth_error (heap w) db = Some d ->
  @Part000.updateDatabaseStatus c R key db state msg w
  = Next (status_result c db d state msg (trace w))
         (status_world c HandleError key d state msg w).
Proof.
  intros H. unfold Part000.updateDatabaseStatus, call.
  rewrite (status_copy_run c HandleError key db state msg w d _ H).
  rewrite bind_ask. cbn [heap trace].
  unfold status_result, status_world, status_effects.
  destruct (atlasclientset_Update c (trace w) (Namespace (db_Meta d))
              (status_copy d state msg)) as [e|].
  - rewrite bind_log. cbn [heap trace]. unfold Return_.
    now rewrite <- app_assoc.
  - erewrite bind_load by (cbn [heap]; apply nth_error_snoc_old, H).
    rewrite bind_ask. cbn [heap trace]. unfold Return_.
    now rewrite <- app_assoc.
Qed.

(** ** The status reporter *)

Lemma status_world_keeps (c : Controller) (lvl : Level) (key : string)
  (d0 : Database) (state msg : string) (w : World) (l : loc) (x : Database) :
  nth_error (heap w) l = Some x ->
  nth_error (heap (status_world c lvl key d0 state msg w)) l = Some x.
Proof. intros H. cbn [status_world heap]. now apply nth_error_snoc_old. Qed.


Lemma status_outcome_on_copy_only (c : Controller) (lvl : Level) (key : string)
  (db : loc) (d : Database) (state msg : string) (w : World) :
  nth_error (heap w) db = Some d ->
  status_on_copy_only c db d state msg w
    (Next (status_result c db d state msg (trace w))
          (status_world c lvl key d state msg w)).
Proof.
  intros H.
  exists (status_result c db d state msg (trace w)),
         (status_world c lvl key d state msg w),
         (List.length (heap w)), (status_copy d state msg).
  split; [reflexivity|].
  split; [intros l x Hl; now apply status_world_keeps|].
  split; [apply nth_error_None; lia|].
  split; [cbn [status_world heap]; apply nth_error_snoc_last|].
  repeat (split; [reflexivity|]).
  split.
  - cbn [status_world trace]. apply in_or_app. right.
    unfold status_effects. now left.
  - intros e He. unfold status_result. now rewrite He.
Qed.

(** C5: in both revisions [updateDatabaseStatus] writes the state and the
    message to a fresh copy and leaves the object it was handed, and every
    other object in memory, unchanged; when the update fails it returns the
    pointer it was handed, not nil, together with the error. *)
Theorem updateDatabaseStatus_on_copy_only (c : Controller) (key : string)
  (db : loc) (state msg : string) (w : World) (d : Database) :
  nth_error (heap w) db = Some d ->
  status_on_copy_only c db d state msg w
    (DatabaseResource.updateDatabaseStatus c key db state msg w)
  /\ status_on_copy_only c db d state msg w
       (Part000.updateDatabaseStatus c key db state msg w).
Proof.
  intros H. split.
  - rewrite (DatabaseResource_updateDatabaseStatus_run c _ key db state msg w d H).
    now apply status_outcome_on_copy_only.
  - rewrite (Part000_updateDatabaseStatus_run c _ key db state msg w d H).
    now apply status_outcome_on_copy_only.
Qed.

Lemma updateDatabaseStatus_on_copy_only_witness :
  nth_error (heap (Scenario.start Scenario.noUsers)) 0 = Some Scenario.noUsers
  /\ status_on_copy_only Scenario.failingUpdates 0 Scenario.noUsers
       StateError "lost" (Scenario.start Scenario.noUsers)
       (DatabaseResource.updateDatabaseStatus Scenario.failingUpdates
          "default/mydb" 0 StateError "lost" (Scenario.start Scenario.noUsers)).
Proof.
  split; [reflexivity|].
  apply (updateDatabaseStatus_on_copy_only Scenario.failingUpdates "default/mydb"
           0 StateError "lost" (Scenario.start Scenario.noUsers) Scenario.noUsers).
  reflexivity.
Defined.

Example updateDatabaseStatus_failure :
  exists w', @DatabaseResource.updateDatabaseStatus Scenario.failingUpdates unit
               "default/mydb" 0 StateError "lost" (Scenario.start Scenario.noUsers)
             = Next (Some 0, Some Scenario.errConflict) w'
             /\ nth_error (heap w') 0 = Some Scenario.noUsers.
Proof. eexists. split; reflexivity. Qed.

(** ** Symbolic execution *)

Ltac lookup :=
  cbn [heap status_world];
  repeat (apply nth_error_snoc_old);
  eassumption.

Ltac tidy :=
  cbn beta iota zeta delta [heap trace fst snd res_obj res_err deref lift when
                            is_nil_ptr negb andb IsNotFound].

Ltac step :=
  first
    [ rewrite bind_ret
    | rewrite bind_Return
    | rewrite bind_panic
    | rewrite bind_ask
    | rewrite bind_log
    | rewrite bind_emit
    | erewrite bind_load by lookup
    | erewrite bind_modify by lookup
    | rewrite bind_assoc ];
  tidy.

Ltac steps := tidy; repeat step.

Lemma DatabaseResource_bind_update {R B} (c : Controller) (key : string)
  (db : loc) (state msg : string) (w : World) (d : Database)
  (k : option loc * option error -> M R B) :
  nth_error (heap w) db = Some d ->
  bind (DatabaseResource.updateDatabaseStatus c key db state msg) k w
  = k (status_result c db d state msg (trace w))
      (status_world c WarningLevel key d state msg w).
Proof.
  intros H. unfold bind at 1.
  now rewrite (DatabaseResource_updateDatabaseStatus_run c R key db state msg w d H).
Qed.

Lemma Part000_bind_update {R B} (c : Controller) (key : string)
  (db : loc) (state msg : string) (w : World) (d : Database)
  (k : option loc * option error -> M R B) :
  nth_error (heap w) db = Some d ->
  bind (Part000.updateDatabaseStatus c key db state msg) k w
  = k (status_result c db d state msg (trace w))
      (status_world c HandleError key d state msg w).
Proof.
  intros H. unfold bind at 1.
  now rewrite (Part000_updateDatabaseStatus_run c R key db state msg w d H).
Qed.

Ltac step_update :=
  first [ erewrite DatabaseResource_bind_update by lookup
        | erewrite Part000_bind_update by lookup ];
  tidy.

Ltac run := tidy; repeat first [step | step_update].


(** ** The secret synchronizer *)

(** X11: the guard of the synchronizer. When [Spec.Users] is nil, both
    revisions return no error and do nothing but log one line: no secret is
    fetched or created, no event is recorded, the memory is as it was. *)
Theorem syncDatabaseSecret_nil_users (c : Controller) (key dsn : string)
  (db : loc) (dbServer : option DatabaseServer) (dbPlugin : DatabasePlugin)
  (w : World) (d : Database) :
  nth_error (heap w) db = Some d ->
  Users (Spec d) = nil_slice ->
  @DatabaseResource.syncDatabaseSecret c (option error) key dsn db dbServer dbPlugin w
  = Next None
      {| heap := heap w;
         trace := (trace w ++
                   [Log DebugLevel " Database users not provided. Skip database secret creation"])%list |}
  /\ @Part000.syncDatabaseSecret c (option error) key dsn db dbServer dbPlugin w
     = Next None
         {| heap := heap w;
            trace := (trace w ++
                      [Log V4 " Database users not provided. Skip database secret creation"])%list |}.
Proof.
  intros H Hnil. split.
  - unfold DatabaseResource.syncDatabaseSecret, call.
    erewrite bind_load by lookup. rewrite Hnil. cbn [is_nil].
    steps. reflexivity.
  - unfold Part000.syncDatabaseSecret, call.
    erewrite bind_load by lookup. rewrite Hnil. cbn [is_nil].
    steps. reflexivity.
Qed.

Lemma syncDatabaseSecret_nil_users_witness :
  nth_error (heap (Scenario.start Scenario.noUsers)) 0 = Some Scenario.noUsers
  /\ Users (Spec Scenario.noUsers) = nil_slice
  /\ @DatabaseResource.syncDatabaseSecret Scenario.conflicting (option error)
       "default/mydb" "" 0 (Some Scenario.pgServer) (Scenario.plugin StateSuccess)
       (Scenario.start Scenario.noUsers)
     = Next None
         {| heap := [Scenario.noUsers];
            trace := [Log DebugLevel " Database users not provided. Skip database secret creation"] |}.
Proof.
  split; [reflexivity|]. split; [reflexivity|].
  apply (syncDatabaseSecret_nil_users Scenario.conflicting "default/mydb" "" 0
           (Some Scenario.pgServer) (Scenario.plugin StateSuccess)
           (Scenario.start Scenario.noUsers) Scenario.noUsers);
    reflexivity.
Defined.

(** C6 fails in the code: with [users: []], an empty list that is not nil,
    the guard [db.Spec.Users == nil] of the "users not provided, skip" branch
    does not hold and the synchronizer goes on to fetch the secret. When no
    secret has the database's name yet, the first revision hands the nil
    secret to [metav1.IsControlledBy] and panics; the second returns the
    lister's not-found error. Neither is the no-op of a database without
    users. *)
Theorem syncDatabaseSecret_empty_users (c : Controller) (key dsn : string)
  (db : loc) (dbServer : option DatabaseServer) (dbPlugin : DatabasePlugin)
  (w : World) (d : Database) (e : error) :
  nth_error (heap w) db = Some d ->
  Users (Spec d) = slice_of [] ->
  secretsLister c (trace w) (Namespace (db_Meta d)) (Name (db_Meta d)) = Err e ->
  notFound e = true ->
  let fetched :=
    {| heap := heap w;
       trace := (trace w ++
                 [SecretsGet (Namespace (db_Meta d)) (Name (db_Meta d))])%list |} in
  @DatabaseResource.syncDatabaseSecret c (option error) key dsn db dbServer dbPlugin w
  = Panicked (NilDereference "secret") fetched
  /\ @Part000.syncDatabaseSecret c (option error) key dsn db dbServer dbPlugin w
     = Next (Some e) fetched.
Proof.
  intros H Hempty Hget Hnf fetched. split.
  - unfold DatabaseResource.syncDatabaseSecret, call.
    erewrite bind_load by lookup. rewrite Hempty. cbn [is_nil elems].
    steps. rewrite Hget. tidy. rewrite Hnf. steps.
    rewrite Hempty. cbn [elems forRange]. steps. reflexivity.
  - unfold Part000.syncDatabaseSecret, call.
    erewrite bind_load by lookup. rewrite Hempty. cbn [is_nil elems].
    steps. rewrite Hget. tidy.
    rewrite Hempty. cbn [elems forRange]. steps. reflexivity.
Qed.

Lemma syncDatabaseSecret_empty_users_witness :
  nth_error (heap (Scenario.start Scenario.emptyUsers)) 0 = Some Scenario.emptyUsers
  /\ Users (Spec Scenario.emptyUsers) = slice_of []
  /\ @DatabaseResource.syncDatabaseSecret Scenario.healthy (option error)
       "default/mydb" "" 0 (Some Scenario.pgServer) (Scenario.plugin StateSuccess)
       (Scenario.start Scenario.emptyUsers)
     = Panicked (NilDereference "secret")
         {| heap := [Scenario.emptyUsers];
            trace := [SecretsGet "default" "mydb"] |}
  /\ @Part000.syncDatabaseSecret Scenario.healthy (option error)
       "default/mydb" "" 0 (Some Scenario.pgServer) (Scenario.plugin StateSuccess)
       (Scenario.start Scenario.emptyUsers)
     = Next (Some (Scenario.errNotFound "mydb"))
         {| heap := [Scenario.emptyUsers];
            trace := [SecretsGet "default" "mydb"] |}.
Proof.
  split; [reflexivity|]. split; [reflexivity|].
  apply (syncDatabaseSecret_empty_users Scenario.healthy "default/mydb" "" 0
           (Some Scenario.pgServer) (Scenario.plugin StateSuccess)
           (Scenario.start Scenario.emptyUsers) Scenario.emptyUsers
           (Scenario.errNotFound "mydb"));
    reflexivity.
Defined.

(** With [users: []] and a foreign secret of the database's name, the
    synchronizer records a warning event and returns an error. *)
Example syncDatabaseSecret_empty_users_foreign_secret :
  elems (Users (Spec Scenario.emptyUsers)) = []
  /\ @DatabaseResource.syncDatabaseSecret Scenario.conflicting (option error)
       "default/mydb" "" 0 (Some Scenario.pgServer) (Scenario.plugin StateSuccess)
       (Scenario.start Scenario.emptyUsers)
     = Next (Some (Errorf "Secret mydb already exists"))
         {| heap := [Scenario.emptyUsers];
            trace := [SecretsGet "default" "mydb";
                      RecorderEvent (RefDatabase (Some 0)) EventTypeWarning
                        "ErrResourceExists" "Secret mydb already exists"] |}
  /\ @Part000.syncDatabaseSecret Scenario.conflicting (option error)
       "default/mydb" "" 0 (Some Scenario.pgServer) (Scenario.plugin StateSuccess)
       (Scenario.start Scenario.emptyUsers)
     = Next (Some (Errorf "Secret mydb already exists"))
         {| heap := [Scenario.emptyUsers];
            trace := [SecretsGet "default" "mydb";
                      RecorderEvent (RefDatabaseServer (Some Scenario.pgServer))
                        EventTypeWarning "ErrResourceExists"
                        "Secret mydb already exists"] |}.
Proof. repeat split; reflexivity. Qed.

Lemma bind_Next {R A B} (m : M R A) (k : A -> M R B) (w w' : World) (a : A) :
  m w = Next a w' -> bind m k w = k a w'.
Proof. intros H. unfold bind. now rewrite H. Qed.

(** A loop whose body never leaves the function keeps what its body keeps. *)
Lemma forRange_invariant {R A V} (P : V -> World -> Prop) (l : list A)
  (body : nat -> A -> V -> M R V) :
  (forall j x v w, In x l -> P v w ->
                   exists v' w', body j x v w = Next v' w' /\ P v' w') ->
  forall i vars w, P vars w ->
    exists v' w', forRange l i body vars w = Next v' w' /\ P v' w'.
Proof.
  induction l as [|x l IH]; intros Hbody i vars w HP; simpl.
  - now exists vars, w.
  - destruct (Hbody i x vars w (or_introl eq_refl) HP) as (v1 & w1 & E1 & P1).
    rewrite (bind_Next _ _ _ _ _ E1).
    apply IH; [|exact P1].
    intros j y v w2 Hy. apply Hbody. now right.
Qed.














(** ** The DSN resolver *)

Lemma status_effects_no_lookup (c : Controller) (lvl : Level) (key : string)
  (d : Database) (state msg : string) (h : History) :
  forallb (fun e => negb (is_lookup e)) (status_effects c lvl key d state msg h)
  = true.
Proof.
  unfold status_effects. now destruct (atlasclientset_Update c h _ _).
Qed.

Lemma status_effects_no_plugin (c : Controller) (lvl : Level) (key : string)
  (d : Database) (state msg : string) (h : History) :
  forallb (fun e => negb (is_plugin_call e)) (status_effects c lvl key d state msg h)
  = true.
Proof.
  unfold status_effects. now destruct (atlasclientset_Update c h _ _).
Qed.

Lemma eqb_empty_false (s : string) : s <> "" -> String.eqb s "" = false.
Proof. apply String.eqb_neq. Qed.

Ltac trace_shape :=
  unfold Return_, ret;
  cbn [world_of status_world trace heap];
  rewrite <- ?app_assoc; cbn [app]; reflexivity.

Lemma DatabaseResource_dsn_precedence (c : Controller) (key : string) (db : loc)
  (s : option DatabaseServer) (w : World) (d : Database) :
  nth_error (heap w) db = Some d ->
  dsn_precedence c d s w (DatabaseResource.syncDatabase_dsn c key db s w).
Proof.
  intros H. unfold dsn_precedence. cbv zeta.
  unfold DatabaseResource.syncDatabase_dsn.
  erewrite bind_load by lookup. cbv zeta.
  split; [|split].
  - intros Hd. now rewrite (eqb_empty_false _ Hd).
  - intros Hd from Hfrom. rewrite Hd, Hfrom. cbn [String.eqb]. run.
    destruct (getSecretFromValueSource c (trace w) (Namespace (db_Meta d)) from)
      as [v err].
    split.
    + destruct err as [e|]; [destruct (notFound e)|]; run.
      * eexists. split; [trace_shape|].
        cbn [forallb is_lookup negb andb]. apply status_effects_no_lookup.
      * eexists. split; [trace_shape|].
        cbn [forallb is_lookup negb andb]. apply status_effects_no_lookup.
      * exists []. split; reflexivity.
    + intros v' [= -> ->]. reflexivity.
  - intros Hd Hfrom server ->. rewrite Hd, Hfrom. cbn [String.eqb]. run.
    destruct (getSecretByName c (trace w) (Namespace (db_Meta d)) "dsn"
                (Name (srv_Meta server))) as [v err].
    split.
    + destruct err as [e|]; [destruct (notFound e)|]; run.
      * eexists. split; [trace_shape|].
        cbn [forallb is_lookup negb andb]. apply status_effects_no_lookup.
      * eexists. split; [trace_shape|].
        cbn [forallb is_lookup negb andb]. apply status_effects_no_lookup.
      * exists []. split; reflexivity.
    + intros v' [= -> ->]. reflexivity.
Qed.

Lemma Part000_dsn_precedence (c : Controller) (key : string) (db : loc)
  (s : option DatabaseServer) (w : World) (d : Database) :
  nth_error (heap w) db = Some d ->
  dsn_precedence c d s w (Part000.syncDatabase_dsn c key db s w).
Proof.
  intros H. unfold dsn_precedence. cbv zeta.
  unfold Part000.syncDatabase_dsn.
  erewrite bind_load by lookup. cbv zeta.
  split; [|split].
  - intros Hd. now rewrite (eqb_empty_false _ Hd).
  - intros Hd from Hfrom. rewrite Hd, Hfrom. cbn [String.eqb]. run.
    destruct (getSecretFromValueSource c (trace w) (Namespace (db_Meta d)) from)
      as [v err].
    split.
    + destruct err as [e|]; [destruct (notFound e)|]; run.
      * eexists. split; [trace_shape|]. apply status_effects_no_lookup.
      * eexists. split; [trace_shape|].
        rewrite forallb_app, status_effects_no_lookup. reflexivity.
      * exists []. split; reflexivity.
    + intros v' [= -> ->]. reflexivity.
  - intros Hd Hfrom server ->. rewrite Hd, Hfrom. cbn [String.eqb]. run.
    destruct (getSecretByName c (trace w) (Namespace (db_Meta d)) "dsn"
                (Name (srv_Meta server))) as [v err].
    split.
    + destruct err as [e|]; [destruct (notFound e)|]; run.
      * eexists. split; [trace_shape|]. apply status_effects_no_lookup.
      * eexists. split; [trace_shape|].
        rewrite forallb_app, status_effects_no_lookup. reflexivity.
      * exists []. split; reflexivity.
    + intros v' [= -> ->]. reflexivity.
Qed.

(** C2: in both revisions the DSN step takes the literal [Spec.Dsn] when it
    is not empty, whatever [Spec.DsnFrom] and the secrets hold, and looks
    nothing up; with an empty literal and a [Spec.DsnFrom] it looks up that
    value source and nothing else, and its value is the DSN; with neither, it
    looks up the key "dsn" of the secret named after the server and nothing
    else. *)
Theorem syncDatabase_dsn_precedence (c : Controller) (key : string) (db : loc)
  (s : option DatabaseServer) (w : World) (d : Database) :
  nth_error (heap w) db = Some d ->
  dsn_precedence c d s w (DatabaseResource.syncDatabase_dsn c key db s w)
  /\ dsn_precedence c d s w (Part000.syncDatabase_dsn c key db s w).
Proof.
  intros H. split.
  - now apply DatabaseResource_dsn_precedence.
  - now apply Part000_dsn_precedence.
Qed.

Lemma syncDatabase_dsn_precedence_witness :
  nth_error (heap (Scenario.start Scenario.standalone)) 0 = Some Scenario.standalone
  /\ dsn_precedence Scenario.healthy Scenario.standalone None
       (Scenario.start Scenario.standalone)
       (DatabaseResource.syncDatabase_dsn Scenario.healthy "default/mydb" 0 None
          (Scenario.start Scenario.standalone)).
Proof.
  split; [reflexivity|].
  apply (syncDatabase_dsn_precedence Scenario.healthy "default/mydb" 0 None
           (Scenario.start Scenario.standalone) Scenario.standalone).
  reflexivity.
Defined.

(** ** The reconciler: finding the database and the initial status *)

Lemma DatabaseResource_syncDatabase_start (c : Controller) (R : Type)
  (key namespace name : string) (db : loc) (w : World) (d : Database) :
  SplitMetaNamespaceKey key = (namespace, name, None) ->
  dbsLister c (trace w ++ processing key)%list namespace name = Ok db ->
  nth_error (heap w) db = Some d ->
  @DatabaseResource.syncDatabase c R key w
  = call (DatabaseResource.syncDatabase_reconcile c key namespace db)
      (if String.eqb (State (Status d)) ""
       then status_world c WarningLevel key d StatePending "Yet to initialize"
              (found (processing key) namespace name w)
       else found (processing key) namespace name w).
Proof.
  intros Hkey Hget H. unfold DatabaseResource.syncDatabase, call.
  rewrite Hkey. run. unfold processing in Hget. rewrite Hget. run.
  unfold found, processing. rewrite <- app_assoc. cbn [app].
  destruct (String.eqb (State (Status d)) ""); run; reflexivity.
Qed.

Lemma Part000_syncDatabase_start (c : Controller) (R : Type)
  (key namespace name : string) (db : loc) (w : World) (d : Database) :
  SplitMetaNamespaceKey key = (namespace, name, None) ->
  dbsLister c (trace w) namespace name = Ok db ->
  nth_error (heap w) db = Some d ->
  @Part000.syncDatabase c R key w
  = if String.eqb (State (Status d)) "" then
      let w1 := found [] namespace name w in
      let w2 := status_world c HandleError key d StatePending "" w1 in
      match status_result c db d StatePending "" (trace w1) with
      | (_, Some e) => Next (Some e) w2
      | (Some db', None) =>
          call (Part000.syncDatabase_reconcile c key namespace db') w2
      | (None, None) => Panicked (NilDereference "db") w2
      end
    else call (Part000.syncDatabase_reconcile c key namespace db)
           (found [] namespace name w).
Proof.
  intros Hkey Hget H. unfold Part000.syncDatabase, call.
  rewrite Hkey. run. rewrite Hget. run.
  unfold found. cbn [app].
  destruct (String.eqb (State (Status d)) ""); run; [|reflexivity].
  destruct (status_result c db d StatePending "" _) as [[db'|] [e|]]; run;
    reflexivity.
Qed.

(** C8, as the code has it. A database found under its key has no status
    yet. Both revisions send a status update that sets [Pending] on a copy.
    The first revision ignores what the update returns and goes on with the
    rest of the routine, in the world the update left behind. The second
    revision goes on, with the object it fetched again, only when the update
    succeeded; when the update failed it returns the error at once. *)
Theorem syncDatabase_initial_status (c : Controller)
  (key namespace name : string) (db : loc) (w : World) (d : Database) :
  SplitMetaNamespaceKey key = (namespace, name, None) ->
  nth_error (heap w) db = Some d ->
  State (Status d) = "" ->
  (dbsLister c (trace w ++ processing key)%list namespace name = Ok db ->
   let pending := status_copy d StatePending "Yet to initialize" in
   let w1 := found (processing key) namespace name w in
   let w2 := status_world c WarningLevel key d StatePending "Yet to initialize" w1 in
   State (Status pending) = StatePending
   /\ In (DatabasesUpdate (Namespace (db_Meta d)) pending) (trace w2)
   /\ @DatabaseResource.syncDatabase c (option error) key w
      = call (DatabaseResource.syncDatabase_reconcile c key namespace db) w2)
  /\ (dbsLister c (trace w) namespace name = Ok db ->
      let pending := status_copy d StatePending "" in
      let w1 := found [] namespace name w in
      let w2 := status_world c HandleError key d StatePending "" w1 in
      State (Status pending) = StatePending
      /\ In (DatabasesUpdate (Namespace (db_Meta d)) pending) (trace w2)
      /\ (forall e,
            atlasclientset_Update c (trace w1) (Namespace (db_Meta d)) pending
            = Some e ->
            @Part000.syncDatabase c (option error) key w = Next (Some e) w2)
      /\ (forall db',
            atlasclientset_Update c (trace w1) (Namespace (db_Meta d)) pending
            = None ->
            dbsLister c (trace w1 ++ [DatabasesUpdate (Namespace (db_Meta d)) pending])%list
              (Namespace (db_Meta d)) (Name (db_Meta d)) = Ok db' ->
            @Part000.syncDatabase c (option error) key w
            = call (Part000.syncDatabase_reconcile c key namespace db') w2)).
Proof.
  intros Hkey H Hstate.
  assert (forall lvl msg w1,
            In (DatabasesUpdate (Namespace (db_Meta d)) (status_copy d StatePending msg))
               (trace (status_world c lvl key d StatePending msg w1))) as Hin.
  { intros lvl msg w1. cbn [status_world trace]. apply in_or_app. right.
    unfold status_effects. now left. }
  split.
  - intros Hget pending w1 w2.
    split; [reflexivity|]. split; [apply Hin|].
    rewrite (DatabaseResource_syncDatabase_start c _ key namespace name db w d
               Hkey Hget H).
    now rewrite Hstate.
  - intros Hget pending w1 w2.
    split; [reflexivity|]. split; [apply Hin|].
    rewrite (Part000_syncDatabase_start c _ key namespace name db w d Hkey Hget H).
    rewrite Hstate. cbn [String.eqb]. cbv zeta. fold w1 pending.
    unfold status_result. fold pending. split.
    + intros e He. now rewrite He.
    + intros db' He Hre. rewrite He. cbv zeta. rewrite Hre. reflexivity.
Qed.

Lemma syncDatabase_initial_status_witness :
  SplitMetaNamespaceKey "default/mydb" = ("default", "mydb", None)
  /\ nth_error (heap (Scenario.start Scenario.standalone)) 0 = Some Scenario.standalone
  /\ State (Status Scenario.standalone) = ""
  /\ @DatabaseResource.syncDatabase Scenario.failingUpdates (option error)
       "default/mydb" (Scenario.start Scenario.standalone)
     = call (DatabaseResource.syncDatabase_reconcile Scenario.failingUpdates
               "default/mydb" "default" 0)
         (status_world Scenario.failingUpdates WarningLevel "default/mydb"
            Scenario.standalone StatePending "Yet to initialize"
            (found (processing "default/mydb") "default" "mydb"
               (Scenario.start Scenario.standalone))).
Proof.
  repeat (split; [reflexivity|]).
  apply (syncDatabase_initial_status Scenario.failingUpdates "default/mydb"
           "default" "mydb" 0 (Scenario.start Scenario.standalone)
           Scenario.standalone);
    reflexivity.
Defined.

(** C8 as stated fails: on a new database for which everything else is in
    place, the first revision reaches the plugin although the update of the
    initial status fails, and the second revision returns the error of that
    update and calls nothing after it. *)
Lemma syncDatabase_initial_status_counterexample :
  State (Status Scenario.standalone) = ""
  /\ (exists w',
        @DatabaseResource.syncDatabase Scenario.failingUpdates (option error)
          "default/mydb" (Scenario.start Scenario.standalone) = Next None w'
        /\ existsb is_plugin_call (trace w') = true)
  /\ @Part000.syncDatabase Scenario.failingUpdates (option error)
       "default/mydb" (Scenario.start Scenario.standalone)
     = Next (Some Scenario.errConflict)
         {| heap := [Scenario.standalone;
                     status_copy Scenario.standalone StatePending ""];
            trace := [DatabasesGet "default" "mydb";
                      DatabasesUpdate "default"
                        (status_copy Scenario.standalone StatePending "");
                      Log HandleError
                        "error updating status to 'Pending' for database 'default/mydb': the object has been modified"] |}.
Proof.
  split; [reflexivity|]. split.
  - exists (world_of (@DatabaseResource.syncDatabase Scenario.failingUpdates
                        (option error) "default/mydb"
                        (Scenario.start Scenario.standalone))).
    split; vm_compute; reflexivity.
  - vm_compute. reflexivity.
Qed.

(** ** The reconciler: misconfiguration *)

Lemma DatabaseResource_reconcile_misconfigured (c : Controller) (R : Type)
  (key namespace : string) (db : loc) (w : World) (d : Database) :
  nth_error (heap w) db = Some d ->
  Server (Spec d) = "" -> ServerType (Spec d) = "" ->
  let msg := "database '" ++ key ++ "' has no serverType or server set" in
  @call R _ (DatabaseResource.syncDatabase_reconcile c key namespace db) w
  = Next None
      (status_world c WarningLevel key d StateError msg
         {| heap := heap w; trace := (trace w ++ [Log ErrorLevel msg])%list |}).
Proof.
  intros H Hs Ht msg. unfold call, DatabaseResource.syncDatabase_reconcile.
  erewrite bind_load by lookup. rewrite Hs. cbn [nonempty String.eqb negb].
  run. rewrite Ht. cbn [String.eqb]. run. reflexivity.
Qed.

Lemma Part000_reconcile_misconfigured (c : Controller) (R : Type)
  (key namespace : string) (db : loc) (w : World) (d : Database) :
  nth_error (heap w) db = Some d ->
  Server (Spec d) = "" -> ServerType (Spec d) = "" ->
  let msg := "database '" ++ key ++ "' has no serverType or server set" in
  let w' := status_world c HandleError key d StateError msg w in
  @call R _ (Part000.syncDatabase_reconcile c key namespace db) w
  = Next None
      {| heap := heap w'; trace := (trace w' ++ [Log HandleError msg])%list |}.
Proof.
  intros H Hs Ht msg w'. unfold call, Part000.syncDatabase_reconcile.
  erewrite bind_load by lookup. rewrite Hs. cbn [nonempty String.eqb negb].
  run. rewrite Ht. cbn [String.eqb]. run. reflexivity.
Qed.

Lemma contains_key (pre key post : string) : contains (pre ++ key ++ post) key.
Proof. now exists pre, post. Qed.



Lemma reported (c : Controller) (lvl : Level) (key : string) (d : Database)
  (w w' : World) (h : History) (pre post : string) (before after : list Effect) :
  trace w'
  = (trace w ++ before
     ++ status_effects c lvl key d StateError (pre ++ key ++ post) h ++ after)%list ->
  forallb (fun e => negb (is_plugin_call e)) before = true ->
  forallb (fun e => negb (is_plugin_call e)) after = true ->
  misconfiguration_reported key d w (Next None w').
Proof.
  intros Ht Hb Ha.
  exists w', (before ++ status_effects c lvl key d StateError (pre ++ key ++ post) h
              ++ after)%list,
         (status_copy d StateError (pre ++ key ++ post)).
  split; [reflexivity|]. split; [exact Ht|].
  split; [apply in_or_app; right; apply in_or_app; left;
          unfold status_effects; now left|].
  split; [reflexivity|]. split; [apply contains_key|].
  now rewrite !forallb_app, Hb, Ha, status_effects_no_plugin.
Qed.

Lemma status_effects_no_error_status (c : Controller) (lvl : Level) (key : string)
  (d : Database) (msg : string) (h : History) :
  forallb (fun e => negb (is_status_update StateError e))
    (status_effects c lvl key d StatePending msg h) = true.
Proof.
  unfold status_effects. now destruct (atlasclientset_Update c h _ _).
Qed.

Lemma skipn_app_length {A} (l l' : list A) : skipn (List.length l) (l ++ l') = l'.
Proof. induction l as [|a l IH]; simpl; [reflexivity|exact IH]. Qed.

(** C3, as the code has it. A database found under its key names neither a
    server nor a server type. The first revision sends a status update that
    sets [Error] with a message that contains the key, returns nil and calls
    no plugin. The second revision does the same when the status of the
    database is already set, and when the initial update to [Pending]
    succeeds and the object fetched again is still without server and
    server type; when that initial update fails it returns the error of the
    update and has sent no [Error] status. *)
Theorem syncDatabase_misconfiguration (c : Controller)
  (key namespace name : string) (db : loc) (w : World) (d : Database) :
  SplitMetaNamespaceKey key = (namespace, name, None) ->
  nth_error (heap w) db = Some d ->
  ServerType (Spec d) = "" ->
  Server (Spec d) = "" ->
  (dbsLister c (trace w ++ processing key)%list namespace name = Ok db ->
   misconfiguration_reported key d w (DatabaseResource.syncDatabase c key w))
  /\ (dbsLister c (trace w) namespace name = Ok db ->
      let pending := status_copy d StatePending "" in
      let w1 := found [] namespace name w in
      (State (Status d) <> "" ->
       misconfiguration_reported key d w (Part000.syncDatabase c key w))
      /\ (forall db' d',
            State (Status d) = "" ->
            atlasclientset_Update c (trace w1) (Namespace (db_Meta d)) pending
            = None ->
            dbsLister c (trace w1 ++ [DatabasesUpdate (Namespace (db_Meta d)) pending])%list
              (Namespace (db_Meta d)) (Name (db_Meta d)) = Ok db' ->
            nth_error (heap w) db' = Some d' ->
            ServerType (Spec d') = "" -> Server (Spec d') = "" ->
            misconfiguration_reported key d' w (Part000.syncDatabase c key w))
      /\ (forall e,
            State (Status d) = "" ->
            atlasclientset_Update c (trace w1) (Namespace (db_Meta d)) pending
            = Some e ->
            exists w',
              @Part000.syncDatabase c (option error) key w = Next (Some e) w'
              /\ forallb (fun e => negb (is_status_update StateError e))
                   (skipn (List.length (trace w)) (trace w')) = true)).
Proof.
  intros Hkey H Ht Hs. split.
  - intros Hget.
    rewrite (DatabaseResource_syncDatabase_start c _ key namespace name db w d
               Hkey Hget H).
    rewrite DatabaseResource_reconcile_misconfigured with (d := d);
      [|destruct (String.eqb (State (Status d)) ""); lookup|assumption..].
    destruct (String.eqb (State (Status d)) "").
    + eapply reported with
        (before := (processing key ++ [DatabasesGet namespace name]
                    ++ status_effects c WarningLevel key d StatePending
                         "Yet to initialize" _ ++ [Log ErrorLevel _])%list)
        (after := []).
      * cbn [status_world found trace heap processing].
        rewrite <- ?app_assoc. cbn [app]. rewrite app_nil_r. reflexivity.
      * cbn [processing app forallb is_plugin_call negb andb].
        now rewrite forallb_app, status_effects_no_plugin.
      * reflexivity.
    + eapply reported with
        (before := (processing key ++ [DatabasesGet namespace name]
                    ++ [Log ErrorLevel _])%list)
        (after := []).
      * cbn [status_world found trace heap processing].
        rewrite <- ?app_assoc. cbn [app]. rewrite app_nil_r. reflexivity.
      * reflexivity.
      * reflexivity.
  - intros Hget pending w1.
    rewrite (Part000_syncDatabase_start c _ key namespace name db w d Hkey Hget H).
    split; [|split].
    + intros Hst. rewrite (eqb_empty_false _ Hst).
      rewrite Part000_reconcile_misconfigured with (d := d);
        [|lookup|assumption..].
      eapply reported with (before := [DatabasesGet namespace name])
                           (after := [Log HandleError _]).
      * cbn [status_world found trace heap].
        rewrite <- ?app_assoc. cbn [app]. reflexivity.
      * reflexivity.
      * reflexivity.
    + intros db' d' Hst Hup Hre H' Ht' Hs'.
      rewrite Hst. cbn [String.eqb]. cbv zeta. fold w1.
      unfold status_result. fold pending. rewrite Hup. cbv zeta.
      rewrite Hre. cbn [res_obj res_err].
      rewrite Part000_reconcile_misconfigured with (d := d');
        [|lookup|assumption..].
      eapply reported with
        (before := (DatabasesGet namespace name
                    :: status_effects c HandleError key d StatePending "" _)%list)
        (after := [Log HandleError _]).
      * unfold w1. cbn [status_world found trace heap].
        rewrite <- ?app_assoc. cbn [app]. reflexivity.
      * cbn [forallb is_plugin_call negb andb]. apply status_effects_no_plugin.
      * reflexivity.
    + intros e Hst Hup.
      rewrite Hst. cbn [String.eqb]. cbv zeta. fold w1.
      unfold status_result. fold pending. rewrite Hup.
      eexists. split; [reflexivity|].
      unfold w1. cbn [status_world found trace heap].
      rewrite <- ?app_assoc. rewrite skipn_app_length.
      cbn [app forallb is_status_update negb andb].
      apply status_effects_no_error_status.
Qed.

Lemma syncDatabase_misconfiguration_witness :
  SplitMetaNamespaceKey "default/mydb" = ("default", "mydb", None)
  /\ nth_error (heap (Scenario.start Scenario.misconfigured)) 0
     = Some Scenario.misconfigured
  /\ ServerType (Spec Scenario.misconfigured) = ""
  /\ Server (Spec Scenario.misconfigured) = ""
  /\ misconfiguration_reported "default/mydb" Scenario.misconfigured
       (Scenario.start Scenario.misconfigured)
       (DatabaseResource.syncDatabase Scenario.failingUpdates "default/mydb"
          (Scenario.start Scenario.misconfigured)).
Proof.
  repeat (split; [reflexivity|]).
  apply (syncDatabase_misconfiguration Scenario.failingUpdates "default/mydb"
           "default" "mydb" 0 (Scenario.start Scenario.misconfigured)
           Scenario.misconfigured);
    reflexivity.
Defined.

(** C3 as stated fails: in the second revision, when the update of the
    initial [Pending] status fails, the attempt on a database without server
    and server type returns the error of the update, not nil, and no status
    update has set [Error]. *)
Lemma syncDatabase_misconfiguration_counterexample :
  ServerType (Spec Scenario.misconfigured) = ""
  /\ Server (Spec Scenario.misconfigured) = ""
  /\ exists w',
       @Part000.syncDatabase Scenario.failingUpdates (option error) "default/mydb"
         (Scenario.start Scenario.misconfigured)
       = Next (Some Scenario.errConflict) w'
       /\ forallb (fun e => negb (is_status_update StateError e)) (trace w') = true.
Proof.
  split; [reflexivity|]. split; [reflexivity|].
  exists (world_of (@Part000.syncDatabase Scenario.failingUpdates (option error)
                      "default/mydb" (Scenario.start Scenario.misconfigured))).
  split; vm_compute; reflexivity.
Qed.

(** ** The nil server pointer *)


































(** The read for the message of the created event, on the concrete cluster:
    it is reached, after the plugin call, when the database has its own
    DSN. *)
Example syncDatabase_nil_server_created :
  exists w',
    @DatabaseResource.syncDatabase Scenario.creating (option error)
      "default/mydb" (Scenario.start Scenario.standalone)
    = Panicked (NilDereference "s") w'
    /\ existsb is_plugin_call (trace w') = true.
Proof.
  exists (world_of (@DatabaseResource.syncDatabase Scenario.creating (option error)
                      "default/mydb" (Scenario.start Scenario.standalone))).
  split; vm_compute; reflexivity.
Qed.

(** ** Writing through the pointer into the cache *)

(** C4 fails on the code: the database [default/mydb] declares an admin user
    with a [PasswordFrom] reference and an empty password. After one attempt
    of either revision the object in the cache, at address 0, holds the
    password that was looked up; the first revision has also sent it to the
    API server inside the spec of its [Success] update. *)
Theorem syncDatabase_writes_cached_passwords :
  passwords_at (Scenario.start Scenario.standalone) 0 = Some [""]
  /\ (exists w',
        @DatabaseResource.syncDatabase Scenario.healthy (option error)
          "default/mydb" (Scenario.start Scenario.standalone) = Next None w'
        /\ passwords_at w' 0 = Some ["s3cret"]
        /\ existsb (sends_passwords ["s3cret"]) (trace w') = true)
  /\ (exists w',
        @Part000.syncDatabase Scenario.healthy (option error)
          "default/mydb" (Scenario.start Scenario.standalone) = Next None w'
        /\ passwords_at w' 0 = Some ["s3cret"]).
Proof.
  split; [reflexivity|]. split.
  - exists (world_of (@DatabaseResource.syncDatabase Scenario.healthy (option error)
                        "default/mydb" (Scenario.start Scenario.standalone))).
    repeat split; vm_compute; reflexivity.
  - exists (world_of (@Part000.syncDatabase Scenario.healthy (option error)
                        "default/mydb" (Scenario.start Scenario.standalone))).
    repeat split; vm_compute; reflexivity.
Qed.

(** ** More on [getHostAndPort] *)

Lemma Split_part_clean (s : string) (c : ascii) (x : string) :
  In x (Split s c) -> count_byte c x = 0.
Proof.
  revert x. induction s as [|a s IH]; simpl; intros x.
  - intros [<-|[]]. reflexivity.
  - destruct (Ascii.eqb a c) eqn:E.
    + intros [<-|Hx]; [reflexivity|now apply IH].
    + pose proof (Split_nonempty s c) as N.
      destruct (Split s c) as [|h t]; [contradiction|].
      intros [<-|Hx].
      * simpl. rewrite E. apply IH. now left.
      * apply IH. now right.
Qed.

Lemma Split_part_le (s : string) (c c' : ascii) (x : string) :
  In x (Split s c) -> count_byte c' x <= count_byte c' s.
Proof.
  revert x. induction s as [|a s IH]; simpl; intros x.
  - intros [<-|[]]. reflexivity.
  - destruct (Ascii.eqb a c) eqn:E.
    + intros [<-|Hx]; [simpl; lia|]. specialize (IH x Hx). lia.
    + pose proof (Split_nonempty s c) as N.
      destruct (Split s c) as [|h t]; [contradiction|].
      intros [<-|Hx].
      * simpl. specialize (IH h (or_introl eq_refl)). lia.
      * specialize (IH x (or_intror Hx)). lia.
Qed.

Lemma index_In {A} (l : list A) (i : nat) (x : A) : index l i = Value x -> In x l.
Proof.
  unfold index. destruct (nth_error l i) as [y|] eqn:E; [|discriminate].
  intros [= <-]. eapply nth_error_In, E.
Qed.

Lemma int32_range (n : Z) : (- 2 ^ 31 <= int32 n < 2 ^ 31)%Z.
Proof.
  unfold int32.
  pose proof (Z.mod_pos_bound (n + 2 ^ 31) (2 ^ 32) ltac:(lia)). lia.
Qed.

Lemma int32_small (n : Z) : (- 2 ^ 31 <= n < 2 ^ 31)%Z -> int32 n = n.
Proof. intros H. unfold int32. rewrite Z.mod_small; lia. Qed.

(** X1: whatever the DSN, a host that [getHostAndPort] returns contains no
    '@', '/' or ':', and a port it returns is in the range of [int32]. *)
Theorem getHostAndPort_result_clean (dsn host : string) (port : Z) :
  getHostAndPort dsn = Value (host, port) ->
  plain host /\ (- 2 ^ 31 <= port < 2 ^ 31)%Z.
Proof.
  unfold getHostAndPort.
  destruct (index (Split dsn "@") 1) as [afterAt|] eqn:E1; [|discriminate].
  cbn [obind].
  destruct (index (Split afterAt "/") 0) as [splitDSN|] eqn:E2; [|discriminate].
  cbn [obind].
  destruct (index (Split splitDSN ":") 0) as [h|] eqn:E3; [|discriminate].
  cbn [obind].
  destruct (index (Split splitDSN ":") 1) as [portText|] eqn:E4; [|discriminate].
  cbn [obind].
  destruct (Atoi portText) as [portInt err]. intros [= -> <-].
  apply index_In in E1, E2, E3.
  pose proof (Split_part_clean _ _ _ E1) as A1.
  pose proof (Split_part_clean _ _ _ E2) as A2.
  pose proof (Split_part_clean _ _ _ E3) as A3.
  pose proof (Split_part_le _ _ "@" _ E2) as B2.
  pose proof (Split_part_le _ _ "@" _ E3) as B3.
  pose proof (Split_part_le _ _ "/" _ E3) as C3.
  split; [|apply int32_range].
  rewrite A1 in B2. apply Nat.le_0_r in B2.
  rewrite B2 in B3. apply Nat.le_0_r in B3.
  rewrite A2 in C3. apply Nat.le_0_r in C3.
  unfold plain. auto.
Qed.

Lemma getHostAndPort_result_clean_witness :
  getHostAndPort "postgres://u:p@db.example.com:99999999999/my:db@x"
  = Value ("db.example.com", 1215752191%Z)
  /\ plain "db.example.com"
  /\ (- 2 ^ 31 <= 1215752191 < 2 ^ 31)%Z.
Proof.
  split; [reflexivity|].
  apply (getHostAndPort_result_clean
           "postgres://u:p@db.example.com:99999999999/my:db@x").
  reflexivity.
Defined.

Lemma parse_digits_uint (d : Decimal.uint) (acc : nat) :
  parse_digits (NilEmpty.string_of_uint d) (Z.of_nat acc)
  = Some (Z.of_nat (Nat.of_uint_acc d acc)).
Proof.
  revert acc.
  induction d as [|d IH|d IH|d IH|d IH|d IH|d IH|d IH|d IH|d IH|d IH];
    intros acc; cbn [NilEmpty.string_of_uint parse_digits Nat.of_uint_acc];
    [reflexivity|..];
    (match goal with
     | |- context [digit_of ?a] =>
         let v := eval vm_compute in (digit_of a) in
         change (digit_of a) with v
     end;
     rewrite <- IH; f_equal; rewrite Nat.tail_mul_spec; lia).
Qed.

Lemma count_byte_uint (c : ascii) (d : Decimal.uint) :
  digit_of c = None -> count_byte c (NilEmpty.string_of_uint d) = 0.
Proof.
  intros Hc.
  induction d; cbn [NilEmpty.string_of_uint count_byte]; [reflexivity|..];
    (destruct (Ascii.eqb _ c) eqn:E;
     [apply Ascii.eqb_eq in E; subst c; discriminate Hc|exact IHd]).
Qed.

Lemma Itoa_plain (n : nat) : plain (Itoa n).
Proof. unfold plain, Itoa. repeat split; now apply count_byte_uint. Qed.

Lemma Itoa_first_digit (n : nat) :
  exists a s, Itoa n = String a s /\ digit_of a <> None.
Proof.
  unfold Itoa.
  assert (Nat.to_uint n <> Decimal.Nil) as N.
  { intros E. pose proof (DecimalNat.Unsigned.of_to n) as O.
    rewrite E in O. cbn in O. subst n. discriminate E. }
  destruct (Nat.to_uint n); [contradiction|..];
    cbn [NilEmpty.string_of_uint]; eexists _, _; (split; [reflexivity|discriminate]).
Qed.

Lemma of_uint_acc_le (d : Decimal.uint) (acc : nat) : acc <= Nat.of_uint_acc d acc.
Proof.
  revert acc. induction d; intros acc; cbn [Nat.of_uint_acc]; [lia|..];
    (etransitivity; [|apply IHd]); rewrite Nat.tail_mul_spec; lia.
Qed.

Lemma ParseUint_loop_uint (d : Decimal.uint) (acc : nat) :
  (Z.of_nat (Nat.of_uint_acc d acc) <= maxUint64)%Z ->
  ParseUint_loop (NilEmpty.string_of_uint d) (Z.of_nat acc)
  = (Z.of_nat (Nat.of_uint_acc d acc), None).
Proof.
  revert acc.
  induction d as [|d IH|d IH|d IH|d IH|d IH|d IH|d IH|d IH|d IH|d IH];
    intros acc Hmax;
    cbn [NilEmpty.string_of_uint ParseUint_loop Nat.of_uint_acc] in *;
    [reflexivity|..];
    (match goal with
     | |- context [digit_of ?a] =>
         let v := eval vm_compute in (digit_of a) in
         change (digit_of a) with v
     end;
     change (maxUint64 / 10 + 1)%Z with 1844674407370955162%Z;
     cbv iota zeta;
     match type of Hmax with
     | (Z.of_nat (Nat.of_uint_acc _ ?a1) <= _)%Z =>
         pose proof (of_uint_acc_le d a1) as Hle;
         pose proof (Nat.tail_mul_spec 10 acc) as Hmul
     end;
     unfold maxUint64 in *;
     match goal with
     | |- context [(?x <=? ?y)%Z] =>
         destruct (Z.leb_spec x y) as [L|L]; [lia|]
     end;
     match goal with
     | |- context [(?x <? ?y)%Z] =>
         destruct (Z.ltb_spec x y) as [L'|L']; [lia|]
     end;
     rewrite <- IH by exact Hmax; f_equal; lia).
Qed.

Lemma Atoi_Itoa (n : nat) :
  (Z.of_nat n <= maxInt64)%Z -> Atoi (Itoa n) = (Z.of_nat n, None).
Proof.
  intros H. unfold Atoi. cbv zeta.
  destruct (Itoa_first_digit n) as (a & s & E & D).
  assert (Ascii.eqb a "-" = false) as E1.
  { destruct (Ascii.eqb a "-") eqn:E1; [|reflexivity].
    apply Ascii.eqb_eq in E1. subst a. now contradiction D. }
  assert (Ascii.eqb a "+" = false) as E2.
  { destruct (Ascii.eqb a "+") eqn:E2; [|reflexivity].
    apply Ascii.eqb_eq in E2. subst a. now contradiction D. }
  destruct (_ && _).
  - pose proof (parse_digits_uint (Nat.to_uint n) 0) as P.
    fold (Itoa n) in P. fold (Nat.of_uint (Nat.to_uint n)) in P.
    rewrite DecimalNat.Unsigned.of_to in P.
    rewrite E in *. rewrite E1, E2. cbn [orb andb].
    change (Z.of_nat 0) with 0%Z in P. now rewrite P.
  - assert (ParseUint (Itoa n) = (Z.of_nat n, None)) as P.
    { pose proof (ParseUint_loop_uint (Nat.to_uint n) 0) as P.
      fold (Itoa n) in P. fold (Nat.of_uint (Nat.to_uint n)) in P.
      rewrite DecimalNat.Unsigned.of_to in P.
      unfold ParseUint. rewrite E in *. apply P.
      unfold maxInt64, maxUint64 in *. lia. }
    unfold ParseInt. rewrite E in *. cbv zeta. rewrite E1, E2. cbn [orb negb andb].
    rewrite P.
    destruct (Z.leb_spec (2 ^ 63) (Z.of_nat n)) as [L|L];
      [unfold maxInt64 in H; lia|reflexivity].
Qed.

(** X2: a round trip. From a DSN [credentials@host:port] or
    [credentials@host:port/path], where the credentials contain no '@', the
    host contains no separator and the port is the decimal numeral of a
    number below 2^31, [getHostAndPort] returns that host and that number. *)
Theorem getHostAndPort_round_trip (cred host tail : string) (n : nat) :
  count_byte "@" cred = 0 -> plain host ->
  (Z.of_nat n < 2 ^ 31)%Z ->
  tail = "" \/ (exists t, tail = String "/" t) ->
  getHostAndPort (cred ++ String "@" (host ++ String ":" (Itoa n ++ tail)))
  = Value (host, Z.of_nat n).
Proof.
  intros Hc Hh Hn Ht.
  rewrite (getHostAndPort_shape cred host (Itoa n) tail Hc Hh (Itoa_plain n) Ht).
  rewrite Atoi_Itoa by (unfold maxInt64; lia).
  cbn [fst]. rewrite int32_small by lia. reflexivity.
Qed.

Lemma getHostAndPort_round_trip_witness :
  count_byte "@" "postgres://u:p" = 0
  /\ plain "db.example.com"
  /\ (Z.of_nat 443 < 2 ^ 31)%Z
  /\ getHostAndPort ("postgres://u:p" ++ String "@" ("db.example.com"
                       ++ String ":" (Itoa 443 ++ "/mydb")))
     = Value ("db.example.com", Z.of_nat 443).
Proof.
  split; [reflexivity|]. split; [repeat split|]. split; [vm_compute; reflexivity|].
  apply (getHostAndPort_round_trip "postgres://u:p" "db.example.com" "/mydb" 443).
  - reflexivity.
  - repeat split.
  - vm_compute. reflexivity.
  - right. now exists "mydb".
Defined.

(** ** What a statement keeps *)

Section Keeping.
Variable I : World -> Prop.

Lemma Keeps_ret {R A} (a : A) : Keeps I (@ret R A a).
Proof. intros w H. exact H. Qed.

Lemma Keeps_Return {R A} (r : R) : Keeps I (@Return_ R A r).
Proof. intros w H. exact H. Qed.

Lemma Keeps_panic {R A} (p : Panic) : Keeps I (@panic R A p).
Proof. intros w H. exact H. Qed.

Lemma Keeps_bind {R A B} (m : M R A) (k : A -> M R B) :
  Keeps I m -> (forall a, Keeps I (k a)) -> Keeps I (bind m k).
Proof.
  intros Hm Hk w H. unfold bind. specialize (Hm w H).
  destruct (m w) as [a w'|r w'|p w']; [now apply Hk|exact Hm|exact Hm].
Qed.

Lemma Keeps_call {R B} (body : M B B) : Keeps I body -> Keeps I (@call R B body).
Proof.
  intros Hb w H. unfold call. specialize (Hb w H).
  destruct (body w) as [a w'|r w'|p w']; exact Hb.
Qed.

Lemma Keeps_load {R} (db : loc) : Keeps I (@load R db).
Proof.
  intros w H. unfold load. destruct (nth_error (heap w) db); exact H.
Qed.

Lemma Keeps_lift {R A} (o : Outcome A) : Keeps I (@lift R A o).
Proof. intros w H. destruct o; exact H. Qed.

Lemma Keeps_deref {R A} (what : string) (x : option A) :
  Keeps I (@deref R A what x).
Proof. intros w H. destruct x; exact H. Qed.

Lemma Keeps_forRange {R A V} (l : list A) (body : nat -> A -> V -> M R V) :
  (forall j x v, Keeps I (body j x v)) ->
  forall i vars, Keeps I (forRange l i body vars).
Proof.
  intros Hb. induction l as [|x l IH]; intros i vars; simpl.
  - apply Keeps_ret.
  - apply Keeps_bind; [apply Hb|]. intros v. apply IH.
Qed.

End Keeping.

(** ** The memory an attempt leaves behind *)

Lemma forget_set_User_Password (d : Database) (i : nat) (passwd : string) :
  forget_passwords (set_User_Password d i passwd) = forget_passwords d.
Proof.
  unfold forget_passwords, set_User_Password. cbn.
  destruct (Users (Spec d)) as [|l]; [reflexivity|].
  do 3 f_equal. revert i.
  induction l as [|u l IH]; intros [|i]; cbn; try reflexivity.
  now rewrite IH.
Qed.

Lemma only_passwords_differ_refl (h : list Database) : only_passwords_differ h h.
Proof. intros l d H. now exists d. Qed.

Section Frame.
Variable h0 : list Database.

Lemma framed_ask {R A} (e : Effect) (f : History -> A) :
  Keeps (framed h0) (@ask R A e f).
Proof. intros w H. exact H. Qed.

Lemma framed_emit {R} (e : Effect) : Keeps (framed h0) (@emit R e).
Proof. intros w H. exact H. Qed.

Lemma framed_log {R} (lvl : Level) (msg : string) :
  Keeps (framed h0) (@log R lvl msg).
Proof. intros w H. exact H. Qed.

Lemma framed_snoc (w : World) (x : Database) (t : History) :
  framed h0 w -> framed h0 {| heap := (heap w ++ [x])%list; trace := t |}.
Proof.
  intros H l d Hl. destruct (H l d Hl) as (d' & Hd' & E).
  exists d'. split; [now apply nth_error_snoc_old|exact E].
Qed.

Lemma framed_passwords {R} (db : loc) (i : nat) (passwd : string) :
  Keeps (framed h0) (@modify R db (fun d => set_User_Password d i passwd)).
Proof.
  intros w H. unfold modify.
  destruct (nth_error (heap w) db) as [x|] eqn:E; [|exact H].
  intros l d Hl. destruct (H l d Hl) as (d' & Hd' & Ed). cbn [world_of heap].
  destruct (Nat.eq_dec db l) as [->|N].
  - exists (set_User_Password d' i passwd). split.
    + exact (nth_error_update_nth_same _ _
               (fun d0 => set_User_Password d0 i passwd) _ Hd').
    + now rewrite forget_set_User_Password.
  - exists d'. split; [|exact Ed].
    rewrite <- Hd'. clear - N. revert db l N.
    induction (heap w) as [|a h IH]; intros [|db] [|l] N; cbn; auto.
    contradiction.
Qed.

Lemma DatabaseResource_update_panics (c : Controller) (R : Type) (key : string)
  (db : loc) (state msg : string) (w : World) :
  nth_error (heap w) db = None ->
  @DatabaseResource.updateDatabaseStatus c R key db state msg w
  = Panicked (NilDereference "db") w.
Proof.
  intros E. unfold DatabaseResource.updateDatabaseStatus, call, bind, DeepCopy.
  now rewrite E.
Qed.

Lemma Part000_update_panics (c : Controller) (R : Type) (key : string)
  (db : loc) (state msg : string) (w : World) :
  nth_error (heap w) db = None ->
  @Part000.updateDatabaseStatus c R key db state msg w
  = Panicked (NilDereference "db") w.
Proof.
  intros E. unfold Part000.updateDatabaseStatus, call, bind, DeepCopy.
  now rewrite E.
Qed.

Lemma DatabaseResource_framed_update (c : Controller) (R : Type) (key : string)
  (db : loc) (state msg : string) :
  Keeps (framed h0) (@DatabaseResource.updateDatabaseStatus c R key db state msg).
Proof.
  intros w H. destruct (nth_error (heap w) db) as [d|] eqn:E.
  - rewrite (DatabaseResource_updateDatabaseStatus_run c R key db state msg w d E).
    now apply framed_snoc.
  - now rewrite DatabaseResource_update_panics.
Qed.

Lemma Part000_framed_update (c : Controller) (R : Type) (key : string)
  (db : loc) (state msg : string) :
  Keeps (framed h0) (@Part000.updateDatabaseStatus c R key db state msg).
Proof.
  intros w H. destruct (nth_error (heap w) db) as [d|] eqn:E.
  - rewrite (Part000_updateDatabaseStatus_run c R key db state msg w d E).
    now apply framed_snoc.
  - now rewrite Part000_update_panics.
Qed.

End Frame.

(** One step of a proof that a statement keeps the memory framed, chosen by
    the shape of the statement. *)
Ltac framed_step :=
  cbv beta;
  lazymatch goal with
  | |- Keeps _ (ret _) => apply Keeps_ret
  | |- Keeps _ (Return_ _) => apply Keeps_Return
  | |- Keeps _ (panic _) => apply Keeps_panic
  | |- Keeps _ (load _) => apply Keeps_load
  | |- Keeps _ (lift _) => apply Keeps_lift
  | |- Keeps _ (deref _ _) => apply Keeps_deref
  | |- Keeps _ (ask _ _) => apply framed_ask
  | |- Keeps _ (emit _) => apply framed_emit
  | |- Keeps _ (log _ _) => apply framed_log
  | |- Keeps _ (modify _ (fun d => set_User_Password d _ _)) =>
      apply framed_passwords
  | |- Keeps _ (DatabaseResource.updateDatabaseStatus _ _ _ _ _) =>
      apply DatabaseResource_framed_update
  | |- Keeps _ (Part000.updateDatabaseStatus _ _ _ _ _) =>
      apply Part000_framed_update
  | |- Keeps _ (call _) => apply Keeps_call
  | |- Keeps _ (forRange _ _ _ _) => apply Keeps_forRange; intros
  | |- Keeps _ (bind _ _) => apply Keeps_bind; [|intros]
  | |- Keeps _ (when _ _) => unfold when
  | |- Keeps _ (let _ := _ in _) => cbv zeta
  | |- Keeps _ (match ?x with _ => _ end) => destruct x
  end.

Lemma DatabaseResource_framed_secret (h0 : list Database) (c : Controller)
  (R : Type) (key dsn : string) (db : loc) (dbServer : option DatabaseServer)
  (dbPlugin : DatabasePlugin) :
  Keeps (framed h0)
    (@DatabaseResource.syncDatabaseSecret c R key dsn db dbServer dbPlugin).
Proof. unfold DatabaseResource.syncDatabaseSecret. repeat framed_step. Qed.

Lemma Part000_framed_secret (h0 : list Database) (c : Controller)
  (R : Type) (key dsn : string) (db : loc) (dbServer : option DatabaseServer)
  (dbPlugin : DatabasePlugin) :
  Keeps (framed h0)
    (@Part000.syncDatabaseSecret c R key dsn db dbServer dbPlugin).
Proof. unfold Part000.syncDatabaseSecret. repeat framed_step. Qed.

Lemma DatabaseResource_framed_dsn (h0 : list Database) (c : Controller)
  (key : string) (db : loc) (s : option DatabaseServer) :
  Keeps (framed h0) (DatabaseResource.syncDatabase_dsn c key db s).
Proof. unfold DatabaseResource.syncDatabase_dsn. repeat framed_step. Qed.

Lemma Part000_framed_dsn (h0 : list Database) (c : Controller)
  (key : string) (db : loc) (s : option DatabaseServer) :
  Keeps (framed h0) (Part000.syncDatabase_dsn c key db s).
Proof. unfold Part000.syncDatabase_dsn. repeat framed_step. Qed.

Ltac framed_call :=
  lazymatch goal with
  | |- Keeps _ (DatabaseResource.syncDatabaseSecret _ _ _ _ _ _) =>
      apply DatabaseResource_framed_secret
  | |- Keeps _ (Part000.syncDatabaseSecret _ _ _ _ _ _) =>
      apply Part000_framed_secret
  | |- Keeps _ (DatabaseResource.syncDatabase_dsn _ _ _ _) =>
      apply DatabaseResource_framed_dsn
  | |- Keeps _ (Part000.syncDatabase_dsn _ _ _ _) =>
      apply Part000_framed_dsn
  | |- _ => framed_step
  end.

Lemma DatabaseResource_framed_reconcile (h0 : list Database) (c : Controller)
  (key namespace : string) (db : loc) :
  Keeps (framed h0) (DatabaseResource.syncDatabase_reconcile c key namespace db).
Proof. unfold DatabaseResource.syncDatabase_reconcile. repeat framed_call. Qed.

Lemma Part000_framed_reconcile (h0 : list Database) (c : Controller)
  (key namespace : string) (db : loc) :
  Keeps (framed h0) (Part000.syncDatabase_reconcile c key namespace db).
Proof. unfold Part000.syncDatabase_reconcile. repeat framed_call. Qed.

Lemma DatabaseResource_framed_syncDatabase (h0 : list Database) (c : Controller)
  (R : Type) (key : string) :
  Keeps (framed h0) (@DatabaseResource.syncDatabase c R key).
Proof.
  unfold DatabaseResource.syncDatabase.
  repeat lazymatch goal with
         | |- Keeps _ (DatabaseResource.syncDatabase_reconcile _ _ _ _) =>
             apply DatabaseResource_framed_reconcile
         | |- _ => framed_step
         end.
Qed.

Lemma Part000_framed_syncDatabase (h0 : list Database) (c : Controller)
  (R : Type) (key : string) :
  Keeps (framed h0) (@Part000.syncDatabase c R key).
Proof.
  unfold Part000.syncDatabase.
  repeat lazymatch goal with
         | |- Keeps _ (Part000.syncDatabase_reconcile _ _ _ _) =>
             apply Part000_framed_reconcile
         | |- _ => framed_step
         end.
Qed.

(** X3: whatever the cluster answers and however an attempt ends, it leaves
    every object that was in memory in place and the same but for the
    passwords of its users: the name, the status and the rest of the spec of
    a cached object are never written, in either revision; a status is set
    on copies only. *)
Theorem syncDatabase_changes_only_passwords (c : Controller) (key : string)
  (w : World) :
  only_passwords_differ (heap w)
    (heap (world_of (@DatabaseResource.syncDatabase c (option error) key w)))
  /\ only_passwords_differ (heap w)
       (heap (world_of (@Part000.syncDatabase c (option error) key w))).
Proof.
  split.
  - apply (DatabaseResource_framed_syncDatabase (heap w) c _ key w).
    apply only_passwords_differ_refl.
  - apply (Part000_framed_syncDatabase (heap w) c _ key w).
    apply only_passwords_differ_refl.
Qed.

(** ** Keys that are dropped *)

Lemma SplitMetaNamespaceKey_malformed (key : string) :
  2 <= count_byte "/" key ->
  SplitMetaNamespaceKey key
  = ("", "", Some (Errorf ("unexpected key format: " ++ key))).
Proof.
  intros H. unfold SplitMetaNamespaceKey.
  pose proof (Split_length key "/") as L.
  destruct (Split key "/") as [|a [|b [|x l]]]; simpl in L; try lia.
  reflexivity.
Qed.

Lemma SplitMetaNamespaceKey_name (key : string) :
  count_byte "/" key = 0 -> SplitMetaNamespaceKey key = ("", key, None).
Proof.
  intros H. unfold SplitMetaNamespaceKey. now rewrite (Split_no_sep key "/" H).
Qed.

Lemma SplitMetaNamespaceKey_pair (namespace name : string) :
  count_byte "/" namespace = 0 -> count_byte "/" name = 0 ->
  SplitMetaNamespaceKey (namespace ++ String "/" name) = (namespace, name, None).
Proof.
  intros Hn Hm. unfold SplitMetaNamespaceKey.
  now rewrite (Split_app namespace "/" name Hn), (Split_no_sep name "/" Hm).
Qed.

(** X4: a key with more than one '/' is dropped. Both revisions return nil
    after logging that the key is invalid; no lister, client or plugin is
    called and the memory is as it was. *)
Theorem syncDatabase_malformed_key (c : Controller) (key : string) (w : World) :
  2 <= count_byte "/" key ->
  @DatabaseResource.syncDatabase c (option error) key w
  = Next None
      {| heap := heap w;
         trace := (trace w ++
                   [Log InfoLevel ("Processing database : " ++ key);
                    Log ErrorLevel ("invalid resource key: " ++ key)])%list |}
  /\ @Part000.syncDatabase c (option error) key w
     = Next None
         {| heap := heap w;
            trace := (trace w ++
                      [Log HandleError ("invalid resource key: " ++ key)])%list |}.
Proof.
  intros H. split.
  - unfold DatabaseResource.syncDatabase, call.
    rewrite (SplitMetaNamespaceKey_malformed key H). run.
    rewrite <- app_assoc. reflexivity.
  - unfold Part000.syncDatabase, call.
    rewrite (SplitMetaNamespaceKey_malformed key H). run. reflexivity.
Qed.

Lemma syncDatabase_malformed_key_witness :
  2 <= count_byte "/" "a/b/c"
  /\ @Part000.syncDatabase Scenario.healthy (option error) "a/b/c"
       (Scenario.start Scenario.noUsers)
     = Next None
         {| heap := [Scenario.noUsers];
            trace := [Log HandleError "invalid resource key: a/b/c"] |}.
Proof.
  split; [vm_compute; lia|].
  apply (syncDatabase_malformed_key Scenario.healthy "a/b/c"
           (Scenario.start Scenario.noUsers)).
  vm_compute. lia.
Defined.

(** X5: a key of the form [namespace/name] whose database the lister does
    not have. When the lister reports not-found, both revisions log it and
    return nil; when it reports another error they return that error. In
    either case nothing but the lister has been called. *)
Theorem syncDatabase_database_missing (c : Controller) (namespace name : string)
  (w : World) (e : error) :
  count_byte "/" namespace = 0 -> count_byte "/" name = 0 ->
  let key := namespace ++ String "/" name in
  let get := DatabasesGet namespace name in
  (dbsLister c (trace w ++ processing key)%list namespace name = Err e ->
   @DatabaseResource.syncDatabase c (option error) key w
   = if notFound e
     then Next None
            {| heap := heap w;
               trace := (trace w ++ processing key ++
                         [get; Log WarningLevel
                                 ("database '" ++ key
                                  ++ "' in work queue no longer exists")])%list |}
     else Next (Some e)
            {| heap := heap w;
               trace := (trace w ++ processing key ++ [get])%list |})
  /\ (dbsLister c (trace w) namespace name = Err e ->
      @Part000.syncDatabase c (option error) key w
      = if notFound e
        then Next None
               {| heap := heap w;
                  trace := (trace w ++
                            [get; Log HandleError
                                    ("database '" ++ key
                                     ++ "' in work queue no longer exists")])%list |}
        else Next (Some e)
               {| heap := heap w; trace := (trace w ++ [get])%list |}).
Proof.
  intros Hn Hm key get. split.
  - intros Hget. unfold DatabaseResource.syncDatabase, call.
    unfold key at 2. rewrite (SplitMetaNamespaceKey_pair namespace name Hn Hm). run.
    unfold processing in Hget. rewrite Hget.
    destruct (notFound e); run; unfold processing;
      rewrite <- ?app_assoc; reflexivity.
  - intros Hget. unfold Part000.syncDatabase, call.
    unfold key at 1. rewrite (SplitMetaNamespaceKey_pair namespace name Hn Hm). run.
    rewrite Hget.
    destruct (notFound e); run; rewrite <- ?app_assoc; reflexivity.
Qed.

Lemma syncDatabase_database_missing_witness :
  count_byte "/" "default" = 0 /\ count_byte "/" "gone" = 0
  /\ @Part000.syncDatabase Scenario.healthy (option error) "default/gone"
       (Scenario.start Scenario.noUsers)
     = Next None
         {| heap := [Scenario.noUsers];
            trace := [DatabasesGet "default" "gone";
                      Log HandleError
                        "database 'default/gone' in work queue no longer exists"] |}.
Proof.
  split; [reflexivity|]. split; [reflexivity|].
  apply (proj2 (syncDatabase_database_missing Scenario.healthy "default" "gone"
                  (Scenario.start Scenario.noUsers)
                  (Scenario.errNotFound "gone") eq_refl eq_refl)).
  reflexivity.
Defined.

(** ** The steps that stop an attempt *)

Ltac finish := unfold Return_, ret; rewrite <- ?app_assoc; cbn [app]; reflexivity.

(** X6: the database names a server and the servers lister fails. When the
    server is not found, both revisions send a [Pending] status that names
    the server and return the not-found error, so that the key is queued
    again; on any other error they return it without writing a status. No
    plugin has been looked up or called. *)
Theorem syncDatabase_server_missing (c : Controller) (key namespace : string)
  (db : loc) (w : World) (d : Database) (e : error) :
  nth_error (heap w) db = Some d ->
  Server (Spec d) <> "" ->
  serversLister c (trace w) namespace (Server (Spec d)) = Err e ->
  let get := DatabaseServersGet namespace (Server (Spec d)) in
  let waiting := "waiting for database server '" ++ namespace ++ "/"
                 ++ Server (Spec d) ++ "'" in
  let failed := "error retrieving database server '" ++ Server (Spec d)
                ++ "' for database '" ++ key ++ "': " ++ Error e in
  @call (option error) _ (DatabaseResource.syncDatabase_reconcile c key namespace db) w
  = Next (Some e)
      (if notFound e
       then status_world c WarningLevel key d StatePending waiting
              {| heap := heap w;
                 trace := (trace w ++ [get; Log DebugLevel waiting])%list |}
       else {| heap := heap w;
               trace := (trace w ++ [get; Log WarningLevel failed])%list |})
  /\ @call (option error) _ (Part000.syncDatabase_reconcile c key namespace db) w
     = Next (Some e)
         (if notFound e
          then status_world c HandleError key d StatePending waiting
                 {| heap := heap w; trace := (trace w ++ [get])%list |}
          else {| heap := heap w;
                  trace := (trace w ++ [get; Log HandleError failed])%list |}).
Proof.
  intros H Hs Hget get waiting failed. split.
  - unfold call, DatabaseResource.syncDatabase_reconcile.
    erewrite bind_load by lookup.
    unfold nonempty at 1. rewrite (eqb_empty_false _ Hs). cbn [negb].
    run. rewrite Hget. destruct (notFound e); run; finish.
  - unfold call, Part000.syncDatabase_reconcile.
    erewrite bind_load by lookup.
    unfold nonempty at 1. rewrite (eqb_empty_false _ Hs). cbn [negb].
    run. rewrite Hget. destruct (notFound e); run; finish.
Qed.

Lemma syncDatabase_server_missing_witness :
  nth_error (heap (Scenario.start Scenario.noUsers)) 0 = Some Scenario.noUsers
  /\ Server (Spec Scenario.noUsers) <> ""
  /\ serversLister Scenario.healthy [] "default" "pg"
     = Err (Scenario.errNotFound "pg")
  /\ @call (option error) _
       (Part000.syncDatabase_reconcile Scenario.healthy "default/mydb" "default" 0)
       (Scenario.start Scenario.noUsers)
     = Next (Some (Scenario.errNotFound "pg"))
         (status_world Scenario.healthy HandleError "default/mydb" Scenario.noUsers
            StatePending "waiting for database server 'default/pg'"
            {| heap := [Scenario.noUsers];
               trace := [DatabaseServersGet "default" "pg"] |}).
Proof.
  split; [reflexivity|]. split; [discriminate|]. split; [reflexivity|].
  apply (proj2 (syncDatabase_server_missing Scenario.healthy "default/mydb"
                  "default" 0 (Scenario.start Scenario.noUsers) Scenario.noUsers
                  (Scenario.errNotFound "pg") eq_refl ltac:(discriminate) eq_refl)).
Defined.



(** X8: a DSN that cannot be read. The literal is empty and the lookup of
    the DSN (the value source of [Spec.DsnFrom], or else the secret named
    after the server) fails. When the lookup reports not-found, both
    revisions send a [Pending] status and leave [syncDatabase] with the
    error, so that the key is queued again; on any other error they send an
    [Error] status and leave [syncDatabase] with nil. *)
Theorem syncDatabase_dsn_unreadable (c : Controller) (key : string) (db : loc)
  (s : option DatabaseServer) (w : World) (d : Database)
  (lookup : Effect) (secretName v : string) (e : error) :
  nth_error (heap w) db = Some d ->
  Dsn (Spec d) = "" ->
  (exists from,
      DsnFrom (Spec d) = Some from
      /\ lookup = GetSecretFromValueSource (Namespace (db_Meta d)) from
      /\ secretName = sel_Name (SecretKeyRef from)
      /\ getSecretFromValueSource c (trace w) (Namespace (db_Meta d)) from
         = (v, Some e))
  \/ (exists server,
         DsnFrom (Spec d) = None /\ s = Some server
         /\ lookup = GetSecretByName (Namespace (db_Meta d)) "dsn"
                       (Name (srv_Meta server))
         /\ secretName = Name (srv_Meta server)
         /\ getSecretByName c (trace w) (Namespace (db_Meta d)) "dsn"
              (Name (srv_Meta server)) = (v, Some e)) ->
  let waiting := "waiting to get DSN for database `" ++ key
                 ++ "` from secret `" ++ secretName ++ "`" in
  let failed := "failed to get valid DSN for database `" ++ key
                ++ "` from secret `" ++ secretName ++ "`" in
  DatabaseResource.syncDatabase_dsn c key db s w
  = (if notFound e
     then Return (Some e)
            (status_world c WarningLevel key d StatePending waiting
               {| heap := heap w;
                  trace := (trace w ++ [lookup; Log DebugLevel waiting])%list |})
     else Return None
            (status_world c WarningLevel key d StateError failed
               {| heap := heap w;
                  trace := (trace w ++ [lookup; Log ErrorLevel failed])%list |}))
  /\ Part000.syncDatabase_dsn c key db s w
     = (if notFound e
        then Return (Some e)
               (status_world c HandleError key d StatePending waiting
                  {| heap := heap w; trace := (trace w ++ [lookup])%list |})
        else Return None
               (let w' := status_world c HandleError key d StateError failed
                            {| heap := heap w;
                               trace := (trace w ++ [lookup])%list |} in
                {| heap := heap w';
                   trace := (trace w' ++ [Log HandleError failed])%list |})).
Proof.
  intros H Hd Hcase waiting failed.
  destruct Hcase as [(from & Hf & -> & Hn & Hl) | (server & Hf & -> & -> & Hn & Hl)].
  - subst secretName. split.
    + unfold DatabaseResource.syncDatabase_dsn.
      erewrite bind_load by lookup. rewrite Hd, Hf. cbn [String.eqb]. run.
      rewrite Hl. destruct (notFound e); run; finish.
    + unfold Part000.syncDatabase_dsn.
      erewrite bind_load by lookup. rewrite Hd, Hf. cbn [String.eqb]. run.
      rewrite Hl. destruct (notFound e); run; finish.
  - subst secretName. split.
    + unfold DatabaseResource.syncDatabase_dsn.
      erewrite bind_load by lookup. rewrite Hd, Hf. cbn [String.eqb]. run.
      rewrite Hl. destruct (notFound e); run; finish.
    + unfold Part000.syncDatabase_dsn.
      erewrite bind_load by lookup. rewrite Hd, Hf. cbn [String.eqb]. run.
      rewrite Hl. destruct (notFound e); run; finish.
Qed.

Lemma syncDatabase_dsn_unreadable_witness :
  nth_error (heap (Scenario.start Scenario.dsnFromSecret)) 0
  = Some Scenario.dsnFromSecret
  /\ Dsn (Spec Scenario.dsnFromSecret) = ""
  /\ Part000.syncDatabase_dsn Scenario.conflictingNoPassword "default/mydb" 0 None
       (Scenario.start Scenario.dsnFromSecret)
     = Return (Some (Scenario.errNotFound "admin-pw"))
         (status_world Scenario.conflictingNoPassword HandleError "default/mydb"
            Scenario.dsnFromSecret StatePending
            "waiting to get DSN for database `default/mydb` from secret `mydb-dsn`"
            {| heap := [Scenario.dsnFromSecret];
               trace := [GetSecretFromValueSource "default"
                           {| SecretKeyRef := {| sel_Name := "mydb-dsn";
                                                 sel_Key := "dsn" |} |}] |}).
Proof.
  split; [reflexivity|]. split; [reflexivity|].
  apply (proj2 (syncDatabase_dsn_unreadable Scenario.conflictingNoPassword
                  "default/mydb" 0 None (Scenario.start Scenario.dsnFromSecret)
                  Scenario.dsnFromSecret
                  (GetSecretFromValueSource "default"
                     {| SecretKeyRef := {| sel_Name := "mydb-dsn";
                                           sel_Key := "dsn" |} |})
                  "mydb-dsn" "" (Scenario.errNotFound "admin-pw")
                  eq_refl eq_refl
                  (or_introl
                     (ex_intro _ {| SecretKeyRef := {| sel_Name := "mydb-dsn";
                                                       sel_Key := "dsn" |} |}
                        (conj eq_refl (conj eq_refl (conj eq_refl eq_refl))))))).
Defined.

(** ** The plugin step *)

Lemma bind_call {R A B} (body : M A A) (k : A -> M R B) (w w' : World) (a : A) :
  body w = Return a w' \/ body w = Next a w' ->
  bind (call body) k w = k a w'.
Proof. intros [H|H]; unfold bind, call; now rewrite H. Qed.

Lemma DatabaseResource_bind_secret_nil {R B} (c : Controller) (key dsn : string)
  (db : loc) (dbServer : option DatabaseServer) (dbPlugin : DatabasePlugin)
  (w : World) (d : Database) (k : option error -> M R B) :
  nth_error (heap w) db = Some d ->
  Users (Spec d) = nil_slice ->
  bind (DatabaseResource.syncDatabaseSecret c key dsn db dbServer dbPlugin) k w
  = k None
      {| heap := heap w;
         trace := (trace w ++
                   [Log DebugLevel " Database users not provided. Skip database secret creation"])%list |}.
Proof.
  intros H Hu. unfold DatabaseResource.syncDatabaseSecret.
  apply bind_call. left.
  erewrite bind_load by lookup. rewrite Hu. cbn [is_nil]. run. reflexivity.
Qed.

Lemma Part000_bind_secret_nil {R B} (c : Controller) (key dsn : string)
  (db : loc) (dbServer : option DatabaseServer) (dbPlugin : DatabasePlugin)
  (w : World) (d : Database) (k : option error -> M R B) :
  nth_error (heap w) db = Some d ->
  Users (Spec d) = nil_slice ->
  bind (Part000.syncDatabaseSecret c key dsn db dbServer dbPlugin) k w
  = k None
      {| heap := heap w;
         trace := (trace w ++
                   [Log V4 " Database users not provided. Skip database secret creation"])%list |}.
Proof.
  intros H Hu. unfold Part000.syncDatabaseSecret.
  apply bind_call. left.
  erewrite bind_load by lookup. rewrite Hu. cbn [is_nil]. run. reflexivity.
Qed.

(** X9: the plugin fails. The database has no server, a server type with a
    plugin, a DSN of its own and no users. When [SyncDatabase] returns an
    error, both revisions send an [Error] status with that error in the
    message and return the error, so that the key is queued again; the
    first revision has not looked at the secret at that point. *)
Theorem syncDatabase_plugin_fails (c : Controller) (key namespace : string)
  (db : loc) (w : World) (d : Database) (p : DatabasePlugin)
  (state : string) (e : error) :
  nth_error (heap w) db = Some d ->
  Server (Spec d) = "" -> ServerType (Spec d) <> "" ->
  NewDBPlugin c (ServerType (Spec d)) = Some p ->
  Dsn (Spec d) <> "" ->
  Users (Spec d) = nil_slice ->
  let sync := PluginSyncDatabase d (Dsn (Spec d)) in
  let msg := "error syncing database '" ++ key ++ "': " ++ Error e in
  let skip := Log V4 " Database users not provided. Skip database secret creation" in
  (SyncDatabase p (trace w) d (Dsn (Spec d)) = (state, Some e) ->
   @call (option error) _ (DatabaseResource.syncDatabase_reconcile c key namespace db) w
   = Next (Some e)
       (status_world c WarningLevel key d StateError msg
          {| heap := heap w;
             trace := (trace w ++ [sync; Log ErrorLevel msg])%list |}))
  /\ (SyncDatabase p (trace w ++ [skip])%list d (Dsn (Spec d)) = (state, Some e) ->
      @call (option error) _ (Part000.syncDatabase_reconcile c key namespace db) w
      = Next (Some e)
          (let w' := status_world c HandleError key d StateError msg
                       {| heap := heap w;
                          trace := (trace w ++ [skip; sync])%list |} in
           {| heap := heap w';
              trace := (trace w' ++ [Log HandleError msg])%list |})).
Proof.
  intros H Hs Ht Hp Hd Hu sync msg skip. split.
  - intros Hsync.
    unfold call, DatabaseResource.syncDatabase_reconcile.
    erewrite bind_load by lookup. rewrite Hs. cbn [nonempty String.eqb negb].
    run. unfold nonempty. rewrite (eqb_empty_false _ Ht). run.
    rewrite Hp. run.
    unfold DatabaseResource.syncDatabase_dsn. run.
    rewrite (eqb_empty_false _ Hd). run.
    rewrite Hu. cbn [elems forRange]. run.
    rewrite Hsync. run. finish.
  - intros Hsync.
    unfold call, Part000.syncDatabase_reconcile.
    erewrite bind_load by lookup. rewrite Hs. cbn [nonempty String.eqb negb].
    run. unfold nonempty. rewrite (eqb_empty_false _ Ht). run.
    rewrite Hp. run.
    unfold Part000.syncDatabase_dsn. run.
    rewrite (eqb_empty_false _ Hd). run.
    erewrite Part000_bind_secret_nil by (try lookup; eassumption). run.
    unfold skip in Hsync. rewrite Hsync. run. finish.
Qed.

Lemma syncDatabase_plugin_fails_witness :
  nth_error (heap (Scenario.start Scenario.standaloneNoUsers)) 0
  = Some Scenario.standaloneNoUsers
  /\ Server (Spec Scenario.standaloneNoUsers) = ""
  /\ ServerType (Spec Scenario.standaloneNoUsers) <> ""
  /\ Dsn (Spec Scenario.standaloneNoUsers) <> ""
  /\ Users (Spec Scenario.standaloneNoUsers) = nil_slice
  /\ @call (option error) _
       (DatabaseResource.syncDatabase_reconcile
          (Scenario.withRegistry (Some Scenario.failingPlugin))
          "default/mydb" "default" 0)
       (Scenario.start Scenario.standaloneNoUsers)
     = Next (Some Scenario.errRefused)
         (status_world (Scenario.withRegistry (Some Scenario.failingPlugin))
            WarningLevel "default/mydb" Scenario.standaloneNoUsers StateError
            "error syncing database 'default/mydb': connection refused"
            {| heap := [Scenario.standaloneNoUsers];
               trace := [PluginSyncDatabase Scenario.standaloneNoUsers
                           "postgres://u:p@db.example.com:5432/mydb";
                         Log ErrorLevel
                           "error syncing database 'default/mydb': connection refused"] |}).
Proof.
  split; [reflexivity|]. split; [reflexivity|]. split; [discriminate|].
  split; [discriminate|]. split; [reflexivity|].
  apply (proj1 (syncDatabase_plugin_fails
                  (Scenario.withRegistry (Some Scenario.failingPlugin))
                  "default/mydb" "default" 0
                  (Scenario.start Scenario.standaloneNoUsers)
                  Scenario.standaloneNoUsers Scenario.failingPlugin ""
                  Scenario.errRefused
                  eq_refl eq_refl ltac:(discriminate) eq_refl
                  ltac:(discriminate) eq_refl)).
  reflexivity.
Defined.

(** X10: the end of an attempt. The database has no server, a server type
    with a plugin, a DSN of its own and no users, and [SyncDatabase]
    succeeds. The first revision sends the [Success] status and returns
    nil whatever that update returns, and records no event. The second
    revision returns the error when the [Success] update, or the fetch
    after it, fails, and records the "synced" event only when both
    succeeded. *)
Theorem syncDatabase_synced (c : Controller) (key namespace : string)
  (db : loc) (w : World) (d : Database) (p : DatabasePlugin) (state : string) :
  nth_error (heap w) db = Some d ->
  Server (Spec d) = "" -> ServerType (Spec d) <> "" ->
  NewDBPlugin c (ServerType (Spec d)) = Some p ->
  Dsn (Spec d) <> "" ->
  Users (Spec d) = nil_slice ->
  let sync := PluginSyncDatabase d (Dsn (Spec d)) in
  (SyncDatabase p (trace w) d (Dsn (Spec d)) = (state, None) ->
   state <> StateCreated ->
   @call (option error) _ (DatabaseResource.syncDatabase_reconcile c key namespace db) w
   = Next None
       (status_world c WarningLevel key d StateSuccess (fmtMessageDatabaseSynced c key)
          {| heap := heap w;
             trace := (trace w ++
                       [sync;
                        Log DebugLevel
                          " Database users not provided. Skip database secret creation"])%list |}))
  /\ (let skip := Log V4 " Database users not provided. Skip database secret creation" in
      let msg := "Successfully synced database '" ++ key ++ "'" in
      let w1 := {| heap := heap w; trace := (trace w ++ [skip; sync])%list |} in
      let w2 := status_world c HandleError key d StateSuccess msg w1 in
      SyncDatabase p (trace w ++ [skip])%list d (Dsn (Spec d)) = (state, None) ->
      @call (option error) _ (Part000.syncDatabase_reconcile c key namespace db) w
      = match status_result c db d StateSuccess msg (trace w1) with
        | (_, Some e) =>
            Next (Some e)
              {| heap := heap w2;
                 trace := (trace w2 ++ [Log HandleError (Error e)])%list |}
        | (db', None) =>
            Next None
              {| heap := heap w2;
                 trace := (trace w2 ++
                           [RecorderEvent (RefDatabase db') EventTypeNormal
                              (SuccessSynced c) Part000.MessageDatabaseSynced])%list |}
        end).
Proof.
  intros H Hs Ht Hp Hd Hu sync. split.
  - intros Hsync Hstate.
    unfold call, DatabaseResource.syncDatabase_reconcile.
    erewrite bind_load by lookup. rewrite Hs. cbn [nonempty String.eqb negb].
    run. unfold nonempty. rewrite (eqb_empty_false _ Ht). run.
    rewrite Hp. run.
    unfold DatabaseResource.syncDatabase_dsn. run.
    rewrite (eqb_empty_false _ Hd). run.
    rewrite Hu. cbn [elems forRange]. run.
    rewrite Hsync. run.
    apply String.eqb_neq in Hstate. rewrite Hstate. run.
    erewrite DatabaseResource_bind_secret_nil by (try lookup; eassumption). run.
    finish.
  - intros skip msg w1 w2 Hsync.
    unfold call, Part000.syncDatabase_reconcile.
    erewrite bind_load by lookup. rewrite Hs. cbn [nonempty String.eqb negb].
    run. unfold nonempty. rewrite (eqb_empty_false _ Ht). run.
    rewrite Hp. run.
    unfold Part000.syncDatabase_dsn. run.
    rewrite (eqb_empty_false _ Hd). run.
    erewrite Part000_bind_secret_nil by (try lookup; eassumption). run.
    unfold skip in Hsync. rewrite Hsync. run.
    rewrite <- app_assoc. cbn [app].
    unfold w2, w1, msg, skip, sync. cbn [trace].
    match goal with
    | |- context [status_result ?x1 ?x2 ?x3 ?x4 ?x5 ?x6] =>
        destruct (status_result x1 x2 x3 x4 x5 x6) as [db' [e|]]
    end; run; reflexivity.
Qed.

Lemma syncDatabase_synced_witness :
  nth_error (heap (Scenario.start Scenario.standaloneNoUsers)) 0
  = Some Scenario.standaloneNoUsers
  /\ Server (Spec Scenario.standaloneNoUsers) = ""
  /\ ServerType (Spec Scenario.standaloneNoUsers) <> ""
  /\ Dsn (Spec Scenario.standaloneNoUsers) <> ""
  /\ Users (Spec Scenario.standaloneNoUsers) = nil_slice
  /\ @call (option error) _
       (DatabaseResource.syncDatabase_reconcile Scenario.failingUpdates
          "default/mydb" "default" 0)
       (Scenario.start Scenario.standaloneNoUsers)
     = Next None
         (status_world Scenario.failingUpdates WarningLevel "default/mydb"
            Scenario.standaloneNoUsers StateSuccess "Database synced successfully"
            {| heap := [Scenario.standaloneNoUsers];
               trace := [PluginSyncDatabase Scenario.standaloneNoUsers
                           "postgres://u:p@db.example.com:5432/mydb";
                         Log DebugLevel
                           " Database users not provided. Skip database secret creation"] |}).
Proof.
  split; [reflexivity|]. split; [reflexivity|]. split; [discriminate|].
  split; [discriminate|]. split; [reflexivity|].
  apply (proj1 (syncDatabase_synced Scenario.failingUpdates
                  "default/mydb" "default" 0
                  (Scenario.start Scenario.standaloneNoUsers)
                  Scenario.standaloneNoUsers (Scenario.plugin StateSuccess)
                  StateSuccess
                  eq_refl eq_refl ltac:(discriminate) eq_refl
                  ltac:(discriminate) eq_refl)).
  - reflexivity.
  - discriminate.
Defined.

(** ** A secret that is in place *)


